(** * Zero-DCE streaming client: the capture / transport / render pipeline

    A shallow embedding of [src/app/page.tsx] (the [Home] component): the
    WebSocket life cycle ([connectWebSocket], [onopen], [onmessage],
    [onerror], [onclose], the effect cleanup), the capture loop
    ([startFrameCapture], [captureFrame]), the compare flag and the
    statistics window.

    The component is single threaded: every callback runs to completion.
    A callback is a computation in a small state-and-exception monad over
    the component's state; the browser (event dispatch, timers, socket ready
    states, image decoding, animation frames) is the part of the state
    called [Browser] and the events of [step]. *)

From Stdlib Require Import ZArith QArith Qround Qabs Qpower Lia Lqa.
From stdpp Require Import base option list gmap strings pretty.

#[local] Set Warnings "-register-all".

Open Scope Z_scope.
Open Scope string_scope.
Open Scope list_scope.

(** ** JavaScript values *)

(** The result of [JSON.parse] is untyped ([any]).  A number is an IEEE 754
    binary64 value; a finite one is held as the rational it denotes. *)
Inductive jsval : Type :=
| JUndefined
| JNull
| JBool (b : bool)
| JNum (q : Q)
| JStr (s : string)
| JArr (xs : list jsval)
| JObj (fields : list (string * jsval)).

Inductive exn : Type :=
| SyntaxError     (* JSON.parse on malformed text, new WebSocket on a bad URL *)
| TypeError       (* property read on null / undefined *)
| DOMException    (* drawImage, toDataURL, send *)
.

(** [response.k] for an own data property [k] of a parsed value (the parser
    leaves one binding per key). *)
Fixpoint assoc (k : string) (fields : list (string * jsval)) : jsval :=
  match fields with
  | [] => JUndefined
  | (k', v) :: rest => if String.eqb k k' then v else assoc k rest
  end.

Definition get_prop (v : jsval) (k : string) : exn + jsval :=
  match v with
  | JUndefined | JNull => inl TypeError
  | JObj fields => inr (assoc k fields)
  | _ => inr JUndefined
  end.

(** [v === 'lit'] *)
Definition strict_eq_str (v : jsval) (lit : string) : bool :=
  match v with
  | JStr s => String.eqb s lit
  | _ => false
  end.

(** ** Numbers

    The arithmetic operators of JavaScript compute in binary64: the exact
    result is rounded to the nearest value with 53 significant bits, ties to
    the even significand, with gradual underflow below 2^-1022.  Results of
    magnitude 2^1024 and more, which binary64 turns into an infinity, are
    out of reach of the quantities the component computes. *)

Definition pow2 (e : Z) : Q := (2 ^ e)%Q.

(** The nearest integer, ties to the even one. *)
Definition round_even (x : Q) : Z :=
  let f := Qfloor x in
  match (x - inject_Z f ?= 1 # 2)%Q with
  | Lt => f
  | Gt => f + 1
  | Eq => if Z.even f then f else f + 1
  end.

(** [floor (log2 |x|)] for [x] other than 0. *)
Definition ilog2 (x : Q) : Z :=
  let d := Z.log2 (Z.abs (Qnum x)) - Z.log2 (Zpos (Qden x)) in
  if Qle_bool (pow2 d) (Qabs x) then d else d - 1.

(** The binary64 value nearest to [x]. *)
Definition double (x : Q) : Q :=
  if Qeq_bool x 0 then 0%Q
  else
    let e := Z.max (ilog2 x - 52) (-1074) in
    Qred (inject_Z (round_even (x / pow2 e)) * pow2 e).

(** [a * b] and [a / b] on numbers. *)
Definition fmul (a b : Q) : Q := double (a * b).
Definition fdiv (a b : Q) : Q := double (a / b).

(** [Math.round] of a number: the nearest integer, ties towards +infinity;
    the result is exact, whatever the argument. *)
Definition Math_round (x : Q) : Z := Qfloor (x + (1 # 2))%Q.

(** ** JSON.stringify on the values the client sends *)

Definition dquote : Ascii.ascii := Ascii.ascii_of_nat 34.
Definition backslash : Ascii.ascii := Ascii.ascii_of_nat 92.

Definition hex_digit (n : nat) : Ascii.ascii :=
  Ascii.ascii_of_nat (if Nat.ltb n 10 then 48 + n else 87 + n).

Definition escape_char (c : Ascii.ascii) : string :=
  let n := Ascii.nat_of_ascii c in
  if Nat.eqb n 34 then String backslash (String dquote EmptyString)
  else if Nat.eqb n 92 then String backslash (String backslash EmptyString)
  else if Nat.eqb n 8 then String backslash "b"
  else if Nat.eqb n 9 then String backslash "t"
  else if Nat.eqb n 10 then String backslash "n"
  else if Nat.eqb n 12 then String backslash "f"
  else if Nat.eqb n 13 then String backslash "r"
  else if Nat.ltb n 32 then
    String backslash
      (String.append "u00"
         (String (hex_digit (Nat.div n 16))
            (String (hex_digit (Nat.modulo n 16)) EmptyString)))
  else String c EmptyString.

Fixpoint escape_string (s : string) : string :=
  match s with
  | EmptyString => EmptyString
  | String c rest => String.append (escape_char c) (escape_string rest)
  end.

Definition quote_string (s : string) : string :=
  String dquote (String.append (escape_string s) (String dquote EmptyString)).

(** [JSON.stringify({ type: t, image: i })] for two strings. *)
Definition JSON_stringify_frame (t i : string) : string :=
  String.append "{"
    (String.append (quote_string "type")
       (String.append ":"
          (String.append (quote_string t)
             (String.append ","
                (String.append (quote_string "image")
                   (String.append ":"
                      (String.append (quote_string i) "}"))))))).

(** ** The component's state *)

Record ProcessingStats : Type := {
  fps : Q;
  processingTime : jsval;
  frameCount : jsval
}.

(** [useState] cells. *)
Record Hooks : Type := {
  isConnected : bool;
  isStreaming : bool;
  isComparing : bool;
  stats : ProcessingStats;
  error : jsval                   (* string | null *)
}.

(** [useRef] cells.  The page renders one video and two canvases; an element
    ref is either null or points to that element, which lives in [Browser]. *)
Record Refs : Type := {
  videoRef : bool;
  hiddenCanvasRef : bool;
  displayCanvasRef : bool;
  wsRef : option nat;
  isComparingRef : bool;
  frameCountRef : Z;
  lastStatsTimeRef : Z
}.

(** Variables captured by the callbacks: [ws] and [reconnectTimeout] of the
    connection effect, [frameSkip] of [startFrameCapture]. *)
Record Closure : Type := {
  ws : option nat;
  reconnectTimeout : option nat;
  frameSkip : Z
}.

Inductive ReadyState : Type := CONNECTING | OPEN | CLOSING | CLOSED.

Record Video : Type := { paused : bool; ended : bool }.

Record Canvas : Type := {
  width : Z;
  height : Z;
  context2d : bool      (* does getContext('2d') return a context? *)
}.

Inductive Surface : Type := HiddenSurface | DisplaySurface.

(** What the component does to the outside world. *)
Inductive Effect : Type :=
| ConsoleLog (msg : string)
| ConsoleError (msg : string)
| NewWebSocket (url : string)
| WsSend (sock : nat) (payload : string)
| WsClose (sock : nat)
| DrawVideo (target : Surface) (w h : Z)
| FillText (target : Surface) (text : string) (x y : Z)
| ToDataURL (mime : string) (quality : Q) (result : option string)
| DrawImage (img : nat) (w h : Z).       (* onto the display canvas *)

Record Browser : Type := {
  protocol : string;              (* window.location.protocol *)
  hostname : string;              (* window.location.hostname *)
  exnText : exn -> string;        (* [String(e)] of an exception the host
                                     throws: its name and message, in the
                                     host's wording *)
  video : Video;
  hiddenCanvas : Canvas;
  displayCanvas : Canvas;
  sockets : list ReadyState;      (* socket k is the k-th one created *)
  timers : gmap nat Z;            (* pending timeouts: id -> delay in ms;
                                     ids are positive, as in browsers *)
  nextTimer : nat;
  images : list (option jsval);   (* [src] of the i-th Image while it decodes *)
  animationFrames : nat;          (* pending requestAnimationFrame callbacks *)
  effects : list Effect           (* what was done so far, newest first *)
}.

Record State : Type := {
  hooks : Hooks;
  refs : Refs;
  closure : Closure;
  browser : Browser
}.

(** Field updates. *)
Definition upd_hooks (f : Hooks -> Hooks) (s : State) : State :=
  {| hooks := f (hooks s); refs := refs s; closure := closure s;
     browser := browser s |}.
Definition upd_refs (f : Refs -> Refs) (s : State) : State :=
  {| hooks := hooks s; refs := f (refs s); closure := closure s;
     browser := browser s |}.
Definition upd_closure (f : Closure -> Closure) (s : State) : State :=
  {| hooks := hooks s; refs := refs s; closure := f (closure s);
     browser := browser s |}.
Definition upd_browser (f : Browser -> Browser) (s : State) : State :=
  {| hooks := hooks s; refs := refs s; closure := closure s;
     browser := f (browser s) |}.

Definition hooks_isConnected (v : bool) (h : Hooks) : Hooks :=
  {| isConnected := v; isStreaming := isStreaming h;
     isComparing := isComparing h; stats := stats h; error := error h |}.
Definition hooks_isStreaming (v : bool) (h : Hooks) : Hooks :=
  {| isConnected := isConnected h; isStreaming := v;
     isComparing := isComparing h; stats := stats h; error := error h |}.
Definition hooks_isComparing (v : bool) (h : Hooks) : Hooks :=
  {| isConnected := isConnected h; isStreaming := isStreaming h;
     isComparing := v; stats := stats h; error := error h |}.
Definition hooks_stats (v : ProcessingStats) (h : Hooks) : Hooks :=
  {| isConnected := isConnected h; isStreaming := isStreaming h;
     isComparing := isComparing h; stats := v; error := error h |}.
Definition hooks_error (v : jsval) (h : Hooks) : Hooks :=
  {| isConnected := isConnected h; isStreaming := isStreaming h;
     isComparing := isComparing h; stats := stats h; error := v |}.

Definition refs_elements (v h d : bool) (r : Refs) : Refs :=
  {| videoRef := v; hiddenCanvasRef := h; displayCanvasRef := d;
     wsRef := wsRef r; isComparingRef := isComparingRef r;
     frameCountRef := frameCountRef r;
     lastStatsTimeRef := lastStatsTimeRef r |}.
Definition refs_wsRef (v : option nat) (r : Refs) : Refs :=
  {| videoRef := videoRef r; hiddenCanvasRef := hiddenCanvasRef r;
     displayCanvasRef := displayCanvasRef r;
     wsRef := v; isComparingRef := isComparingRef r;
     frameCountRef := frameCountRef r;
     lastStatsTimeRef := lastStatsTimeRef r |}.
Definition refs_isComparingRef (v : bool) (r : Refs) : Refs :=
  {| videoRef := videoRef r; hiddenCanvasRef := hiddenCanvasRef r;
     displayCanvasRef := displayCanvasRef r;
     wsRef := wsRef r; isComparingRef := v;
     frameCountRef := frameCountRef r;
     lastStatsTimeRef := lastStatsTimeRef r |}.
Definition refs_frameCountRef (v : Z) (r : Refs) : Refs :=
  {| videoRef := videoRef r; hiddenCanvasRef := hiddenCanvasRef r;
     displayCanvasRef := displayCanvasRef r;
     wsRef := wsRef r; isComparingRef := isComparingRef r;
     frameCountRef := v;
     lastStatsTimeRef := lastStatsTimeRef r |}.
Definition refs_lastStatsTimeRef (v : Z) (r : Refs) : Refs :=
  {| videoRef := videoRef r; hiddenCanvasRef := hiddenCanvasRef r;
     displayCanvasRef := displayCanvasRef r;
     wsRef := wsRef r; isComparingRef := isComparingRef r;
     frameCountRef := frameCountRef r;
     lastStatsTimeRef := v |}.

Definition closure_ws (v : option nat) (c : Closure) : Closure :=
  {| ws := v; reconnectTimeout := reconnectTimeout c;
     frameSkip := frameSkip c |}.
Definition closure_reconnectTimeout (v : option nat) (c : Closure) : Closure :=
  {| ws := ws c; reconnectTimeout := v; frameSkip := frameSkip c |}.
Definition closure_frameSkip (v : Z) (c : Closure) : Closure :=
  {| ws := ws c; reconnectTimeout := reconnectTimeout c; frameSkip := v |}.

Definition browser_video (v : Video) (b : Browser) : Browser :=
  {| protocol := protocol b; hostname := hostname b;
     exnText := exnText b; video := v;
     hiddenCanvas := hiddenCanvas b; displayCanvas := displayCanvas b;
     sockets := sockets b; timers := timers b; nextTimer := nextTimer b;
     images := images b; animationFrames := animationFrames b;
     effects := effects b |}.
Definition browser_canvases (h d : Canvas) (b : Browser) : Browser :=
  {| protocol := protocol b; hostname := hostname b;
     exnText := exnText b; video := video b;
     hiddenCanvas := h; displayCanvas := d;
     sockets := sockets b; timers := timers b; nextTimer := nextTimer b;
     images := images b; animationFrames := animationFrames b;
     effects := effects b |}.
Definition browser_sockets (v : list ReadyState) (b : Browser) : Browser :=
  {| protocol := protocol b; hostname := hostname b;
     exnText := exnText b; video := video b;
     hiddenCanvas := hiddenCanvas b; displayCanvas := displayCanvas b;
     sockets := v; timers := timers b; nextTimer := nextTimer b;
     images := images b; animationFrames := animationFrames b;
     effects := effects b |}.
Definition browser_timers (v : gmap nat Z) (n : nat) (b : Browser) : Browser :=
  {| protocol := protocol b; hostname := hostname b;
     exnText := exnText b; video := video b;
     hiddenCanvas := hiddenCanvas b; displayCanvas := displayCanvas b;
     sockets := sockets b; timers := v; nextTimer := n;
     images := images b; animationFrames := animationFrames b;
     effects := effects b |}.
Definition browser_images (v : list (option jsval)) (b : Browser) : Browser :=
  {| protocol := protocol b; hostname := hostname b;
     exnText := exnText b; video := video b;
     hiddenCanvas := hiddenCanvas b; displayCanvas := displayCanvas b;
     sockets := sockets b; timers := timers b; nextTimer := nextTimer b;
     images := v; animationFrames := animationFrames b;
     effects := effects b |}.
Definition browser_animationFrames (v : nat) (b : Browser) : Browser :=
  {| protocol := protocol b; hostname := hostname b;
     exnText := exnText b; video := video b;
     hiddenCanvas := hiddenCanvas b; displayCanvas := displayCanvas b;
     sockets := sockets b; timers := timers b; nextTimer := nextTimer b;
     images := images b; animationFrames := v;
     effects := effects b |}.
Definition browser_effects (v : list Effect) (b : Browser) : Browser :=
  {| protocol := protocol b; hostname := hostname b;
     exnText := exnText b; video := video b;
     hiddenCanvas := hiddenCanvas b; displayCanvas := displayCanvas b;
     sockets := sockets b; timers := timers b; nextTimer := nextTimer b;
     images := images b; animationFrames := animationFrames b;
     effects := v |}.

(** ** The callback monad: state and exceptions *)

Inductive Result (A : Type) : Type :=
| Ok (a : A)
| Throw (e : exn).
Arguments Ok {A} a.
Arguments Throw {A} e.

Definition Js (A : Type) : Type := State -> Result A * State.

#[export] Instance Js_ret : MRet Js := fun A a s => (Ok a, s).
#[export] Instance Js_bind : MBind Js := fun A B f m s =>
  match m s with
  | (Ok a, s') => f a s'
  | (Throw e, s') => (Throw e, s')
  end.

Definition throw {A : Type} (e : exn) : Js A := fun s => (Throw e, s).

(** [try { body } catch (e) { handler e }] *)
Definition try_catch {A : Type} (body : Js A) (handler : exn -> Js A) : Js A :=
  fun s =>
    match body s with
    | (Ok a, s') => (Ok a, s')
    | (Throw e, s') => handler e s'
    end.

Definition gets {A : Type} (f : State -> A) : Js A := fun s => (Ok (f s), s).
Definition modify (f : State -> State) : Js unit := fun s => (Ok tt, f s).
Definition lift {A : Type} (r : exn + A) : Js A :=
  match r with
  | inl e => throw e
  | inr a => mret a
  end.

(** The state a callback leaves behind (an exception that escapes a callback
    is reported by the browser and changes nothing more). *)
Definition exec {A : Type} (m : Js A) (s : State) : State := snd (m s).

(** ** Host primitives *)

Definition emit (e : Effect) : Js unit :=
  modify (upd_browser (fun b => browser_effects (e :: effects b) b)).
Definition console_log (msg : string) : Js unit := emit (ConsoleLog msg).
Definition console_error (msg : string) : Js unit := emit (ConsoleError msg).

Definition setIsConnected (v : bool) : Js unit :=
  modify (upd_hooks (hooks_isConnected v)).
Definition setIsStreaming (v : bool) : Js unit :=
  modify (upd_hooks (hooks_isStreaming v)).
Definition setIsComparing (v : bool) : Js unit :=
  modify (upd_hooks (hooks_isComparing v)).
Definition setStats (v : ProcessingStats) : Js unit :=
  modify (upd_hooks (hooks_stats v)).
Definition setError (v : jsval) : Js unit :=
  modify (upd_hooks (hooks_error v)).

(** [String(e)] for a caught exception: the text the host gives it. *)
Definition String_exn (e : exn) : Js string :=
  gets (fun s => exnText (browser s) e).

(** [JSON.parse(event.data)]: the handler is modelled on the outcome of the
    host's parser, [None] when it throws. *)
Definition JSON_parse (data : option jsval) : Js jsval :=
  match data with
  | Some v => mret v
  | None => throw SyntaxError
  end.

(** [new WebSocket(url)]; [ok = false] when the constructor throws. *)
Definition new_WebSocket (url : string) (ok : bool) : Js nat :=
  emit (NewWebSocket url);;
  if ok then
    k ← gets (fun s => length (sockets (browser s)));
    modify (upd_browser (fun b => browser_sockets (sockets b ++ [CONNECTING]) b));;
    mret k
  else throw SyntaxError.

Definition readyState (k : nat) : Js (option ReadyState) :=
  gets (fun s => sockets (browser s) !! k).

Definition is_OPEN (r : option ReadyState) : bool :=
  match r with
  | Some OPEN => true
  | _ => false
  end.

(** [socket.send(payload)] *)
Definition ws_send (k : nat) (payload : string) (throws : bool) : Js unit :=
  if throws then throw DOMException else emit (WsSend k payload).

(** [socket.close()] *)
Definition ws_close (k : nat) : Js unit :=
  emit (WsClose k);;
  modify (upd_browser (fun b => browser_sockets (<[k := CLOSING]> (sockets b)) b)).

Definition setTimeout (delay : Z) : Js nat :=
  id ← gets (fun s => nextTimer (browser s));
  modify (upd_browser (fun b => browser_timers (<[id := delay]> (timers b)) (S id) b));;
  mret id.

Definition clearTimeout (id : nat) : Js unit :=
  modify (upd_browser (fun b => browser_timers (delete id (timers b)) (nextTimer b) b)).

Definition requestAnimationFrame : Js unit :=
  modify (upd_browser (fun b => browser_animationFrames (S (animationFrames b)) b)).

(** [const img = new Image(); img.onload = ...; img.src = src]: the decode is
    in flight until the browser reports it. *)
Definition new_Image (src : jsval) : Js nat :=
  i ← gets (fun s => length (images (browser s)));
  modify (upd_browser (fun b => browser_images (images b ++ [Some src]) b));;
  mret i.

(** ** The connection effect (lines 41-132) *)

Definition RECONNECT_DELAY : Z := 3000.

Definition wsUrl (protocol hostname : string) : string :=
  let protocol := if String.eqb protocol "https:" then "wss:" else "ws:" in
  String.append protocol
    (String.append "//" (String.append hostname ":8000/ws/enhance")).

Definition onopen : Js unit :=
  console_log "✓ Connected to Zero-DCE server";;
  setIsConnected true;;
  setError JNull.

(** [img.onload] of the [i]-th image. *)
Definition onload (i : nat) : Js unit :=
  attached ← gets (fun s => displayCanvasRef (refs s));
  canvas ← gets (fun s => displayCanvas (browser s));
  if attached && context2d canvas
  then emit (DrawImage i (width canvas) (height canvas))
  else mret tt.

Definition onmessage (data : option jsval) (now : Z) : Js unit :=
  try_catch
    (response ← JSON_parse data;
     type ← lift (get_prop response "type");
     attached ← gets (fun s => displayCanvasRef (refs s));
     if strict_eq_str type "enhanced" && attached then
       comparing ← gets (fun s => isComparingRef (refs s));
       if (comparing : bool) then
         modify (upd_refs (fun r => refs_frameCountRef (frameCountRef r + 1) r))
       else
         image ← lift (get_prop response "image");
         new_Image image;;
         modify (upd_refs (fun r => refs_frameCountRef (frameCountRef r + 1) r));;
         last ← gets (fun s => lastStatsTimeRef (refs s));
         let elapsed : Z := (now - last)%Z in
         if (1000 <=? elapsed)%Z then
           count ← gets (fun s => frameCountRef (refs s));
           let fps := fmul (fdiv (inject_Z count) (inject_Z elapsed)) 1000 in
           processing_time_ms ← lift (get_prop response "processing_time_ms");
           frame_count ← lift (get_prop response "frame_count");
           setStats {| fps := fdiv (inject_Z (Math_round (fmul fps 10))) 10;
                       processingTime := processing_time_ms;
                       frameCount := frame_count |};;
           modify (upd_refs (refs_frameCountRef 0));;
           modify (upd_refs (refs_lastStatsTimeRef now))
         else mret tt
     else if strict_eq_str type "error" then
       message ← lift (get_prop response "message");
       console_error "Server error:";;
       setError message
     else mret tt)
    (fun e => console_error "Error parsing response:").

Definition onerror : Js unit :=
  console_error "WebSocket error:";;
  setError (JStr "Connection error - is the backend running on port 8000?");;
  setIsConnected false.

Definition onclose : Js unit :=
  console_log "WebSocket disconnected";;
  setIsConnected false;;
  setIsStreaming false;;
  pending ← gets (fun s => reconnectTimeout (closure s));
  match pending with
  | Some id => clearTimeout id
  | None => mret tt
  end;;
  id ← setTimeout RECONNECT_DELAY;
  modify (upd_closure (closure_reconnectTimeout (Some id))).

Definition connectWebSocket (ok : bool) : Js unit :=
  try_catch
    (protocol ← gets (fun s => protocol (browser s));
     hostname ← gets (fun s => hostname (browser s));
     k ← new_WebSocket (wsUrl protocol hostname) ok;
     modify (upd_closure (closure_ws (Some k)));;
     socket ← gets (fun s => ws (closure s));
     modify (upd_refs (refs_wsRef socket)))
    (fun e =>
       console_error "Failed to create WebSocket:";;
       text ← String_exn e;
       setError (JStr text)).

(** The function returned by the effect. *)
Definition cleanup : Js unit :=
  pending ← gets (fun s => reconnectTimeout (closure s));
  match pending with
  | Some id => clearTimeout id
  | None => mret tt
  end;;
  current ← gets (fun s => wsRef (refs s));
  match current with
  | Some k =>
      state ← readyState k;
      if is_OPEN state then ws_close k else mret tt
  | None => mret tt
  end.

(** ** The compare flag (lines 31-34 and the COMPARE button) *)

(** [useEffect(() => { isComparingRef.current = isComparing }, [isComparing])] *)
Definition syncComparing : Js unit :=
  flag ← gets (fun s => isComparing (hooks s));
  modify (upd_refs (refs_isComparingRef flag)).

(** ** The capture loop (lines 172-248) *)

Definition CAPTURE_WIDTH : Z := 640.
Definition CAPTURE_HEIGHT : Z := 360.
Definition JPEG_QUALITY : Q := 6 # 10.
Definition FRAME_SKIP_RATE : Z := 0.

(** What the host answers during one capture step: whether a canvas call
    throws, and the string [toDataURL] returns ([None]: it throws). *)
Record CaptureEnv : Type := {
  drawHidden_throws : bool;
  drawDisplay_throws : bool;
  toDataURL_result : option string;
  send_throws : bool
}.

(** [ctx.drawImage(video, 0, 0, CAPTURE_WIDTH, CAPTURE_HEIGHT)] *)
Definition drawImage_video (target : Surface) (throws : bool) : Js unit :=
  if throws then throw DOMException
  else emit (DrawVideo target CAPTURE_WIDTH CAPTURE_HEIGHT).

(** [hiddenCanvas.toDataURL('image/jpeg', JPEG_QUALITY)] *)
Definition toDataURL (result : option string) : Js string :=
  emit (ToDataURL "image/jpeg" JPEG_QUALITY result);;
  match result with
  | Some url => mret url
  | None => throw DOMException
  end.

(** Lines 233-239: the guarded send. *)
Definition send_frame (imageData : string) (throws : bool) : Js unit :=
  current ← gets (fun s => wsRef (refs s));
  match current with
  | Some k =>
      state ← readyState k;
      if is_OPEN state
      then ws_send k (JSON_stringify_frame "frame" imageData) throws
      else mret tt
  | None => mret tt
  end.

(** The body of the [try] block; the result says whether the function
    returned from inside it. *)
Definition captureFrame_try (env : CaptureEnv) : Js bool :=
  skipped ← gets (fun s => frameSkip (closure s));
  if (skipped <? FRAME_SKIP_RATE)%Z then
    modify (upd_closure (fun c => closure_frameSkip (frameSkip c + 1) c));;
    requestAnimationFrame;;
    mret true
  else
    modify (upd_closure (closure_frameSkip 0));;
    drawImage_video HiddenSurface (drawHidden_throws env);;
    comparing ← gets (fun s => isComparingRef (refs s));
    (if (comparing : bool) then
       drawImage_video DisplaySurface (drawDisplay_throws env);;
       emit (FillText DisplaySurface "ORIGINAL" 10 25)
     else mret tt);;
    imageData ← toDataURL (toDataURL_result env);
    send_frame imageData (send_throws env);;
    mret false.

Definition captureFrame (env : CaptureEnv) : Js unit :=
  attached ← gets (fun s => videoRef (refs s));
  element ← gets (fun s => video (browser s));
  if negb attached || paused element || ended element then mret tt
  else
    hidden ← gets (fun s => hiddenCanvas (browser s));
    display ← gets (fun s => displayCanvas (browser s));
    if negb (context2d hidden) || negb (context2d display) then
      console_error "Failed to get canvas context"
    else
      returned ← try_catch (captureFrame_try env)
                   (fun e => console_error "Error during frame capture:";;
                             mret false);
      if (returned : bool) then mret tt else requestAnimationFrame.

Definition resize (c : Canvas) : Canvas :=
  {| width := CAPTURE_WIDTH; height := CAPTURE_HEIGHT;
     context2d := context2d c |}.

Definition startFrameCapture (env : CaptureEnv) : Js unit :=
  v ← gets (fun s => videoRef (refs s));
  h ← gets (fun s => hiddenCanvasRef (refs s));
  d ← gets (fun s => displayCanvasRef (refs s));
  if negb v || negb h || negb d then
    console_error "Missing required elements for frame capture"
  else
    modify (upd_browser (fun b =>
      browser_canvases (resize (hiddenCanvas b)) (resize (displayCanvas b)) b));;
    console_log "Frame capture started: 640x360 @ 60% quality";;
    modify (upd_closure (closure_frameSkip 0));;
    captureFrame env.

(** [video.onloadedmetadata] (lines 152-156). *)
Definition onloadedmetadata (env : CaptureEnv) : Js unit :=
  attached ← gets (fun s => videoRef (refs s));
  (if (attached : bool) then            (* videoRef.current?.play() *)
     modify (upd_browser (fun b =>
       browser_video {| paused := false; ended := ended (video b) |} b))
   else mret tt);;
  setIsStreaming true;;
  startFrameCapture env.

(** ** The browser: one task per event *)

Inductive Event : Type :=
| SocketOpen (k : nat)
| SocketMessage (k : nat) (data : option jsval) (now : Z)
| SocketLost (k : nat) (failed : bool)
| TimerFires (id : nat) (ok : bool)
| ImageLoaded (i : nat)
| ImageFailed (i : nat)
| AnimationFrame (env : CaptureEnv)
| LoadedMetadata (env : CaptureEnv)
| VideoChanged (v : Video)
| MouseCompare (down : bool)
| ComparingEffect
| Unmount.

Definition set_readyState (k : nat) (r : ReadyState) (s : State) : State :=
  upd_browser (fun b => browser_sockets (<[k := r]> (sockets b)) b) s.

Definition settle_image (i : nat) (s : State) : State :=
  upd_browser (fun b => browser_images (<[i := None]> (images b)) b) s.

(** The task the browser queues when a connection is closed: the ready state
    becomes CLOSED, an [error] event is fired if the connection failed, then a
    [close] event. *)
Definition connection_lost (failed : bool) : Js unit :=
  (if failed then onerror else mret tt);;
  onclose.

(** One task.  An event that the browser cannot deliver in the current state
    (a message on a closed socket, a timer that was cleared) changes nothing.
    A timer that fires leaves the pending set before its callback runs. *)
Definition step (s : State) (e : Event) : State :=
  match e with
  | SocketOpen k =>
      match sockets (browser s) !! k with
      | Some CONNECTING => exec onopen (set_readyState k OPEN s)
      | _ => s
      end
  | SocketMessage k data now =>
      match sockets (browser s) !! k with
      | Some OPEN => exec (onmessage data now) s
      | _ => s
      end
  | SocketLost k failed =>
      match sockets (browser s) !! k with
      | Some CLOSED | None => s
      | Some _ => exec (connection_lost failed) (set_readyState k CLOSED s)
      end
  | TimerFires id ok =>
      match timers (browser s) !! id with
      | Some _ => exec (connectWebSocket ok) (exec (clearTimeout id) s)
      | None => s
      end
  | ImageLoaded i =>
      match images (browser s) !! i with
      | Some (Some _) => exec (onload i) (settle_image i s)
      | _ => s
      end
  | ImageFailed i =>
      match images (browser s) !! i with
      | Some (Some _) => settle_image i s
      | _ => s
      end
  | AnimationFrame env =>
      match animationFrames (browser s) with
      | S n =>
          exec (captureFrame env)
            (upd_browser (browser_animationFrames n) s)
      | O => s
      end
  | LoadedMetadata env => exec (onloadedmetadata env) s
  | VideoChanged v => upd_browser (browser_video v) s
  | MouseCompare down => exec (setIsComparing down) s
  | ComparingEffect => exec syncComparing s
  | Unmount => exec cleanup (upd_refs (refs_elements false false false) s)
  end.

Definition run (s : State) (events : list Event) : State :=
  foldl step s events.

(** The state before the connection effect runs: first render done, elements
    attached, nothing connected. *)
Definition rendered (protocol hostname : string) (text : exn -> string)
    (v : Video) (h d : Canvas) (now : Z) : State :=
  {| hooks := {| isConnected := false; isStreaming := false;
                 isComparing := false;
                 stats := {| fps := 0; processingTime := JNum 0;
                             frameCount := JNum 0 |};
                 error := JNull |};
     refs := {| videoRef := true; hiddenCanvasRef := true;
                displayCanvasRef := true; wsRef := None;
                isComparingRef := false; frameCountRef := 0;
                lastStatsTimeRef := now |};
     closure := {| ws := None; reconnectTimeout := None; frameSkip := 0 |};
     browser := {| protocol := protocol; hostname := hostname;
                   exnText := text; video := v;
                   hiddenCanvas := h; displayCanvas := d; sockets := [];
                   timers := ∅; nextTimer := 1; images := [];
                   animationFrames := 0; effects := [] |} |}.

(** The component once mounted: the connection effect has called
    [connectWebSocket()]. *)
Definition mounted (protocol hostname : string) (text : exn -> string)
    (v : Video) (h d : Canvas) (now : Z) (ok : bool) : State :=
  exec (connectWebSocket ok) (rendered protocol hostname text v h d now).

Inductive reachable : State -> Prop :=
| reachable_mounted protocol hostname text v h d now ok :
    reachable (mounted protocol hostname text v h d now ok)
| reachable_step s e :
    reachable s -> reachable (step s e).

(** ** Vocabulary of the statements *)

(** The kind of an inbound message: [response.type === kind]. *)
Definition message_kind (data : option jsval) (kind : string) : bool :=
  match data with
  | Some response =>
      match get_prop response "type" with
      | inr type => strict_eq_str type kind
      | inl _ => false
      end
  | None => false
  end.

(** The value a message carries under a key. *)
Definition field (data : option jsval) (k : string) : jsval :=
  match data with
  | Some response =>
      match get_prop response k with
      | inr v => v
      | inl _ => JUndefined
      end
  | None => JUndefined
  end.

(** The connection is in the Connected state, as the send guard sees it:
    [wsRef.current && wsRef.current.readyState === WebSocket.OPEN]. *)
Definition socket_open (s : State) : bool :=
  match wsRef (refs s) with
  | Some k => is_OPEN (sockets (browser s) !! k)
  | None => false
  end.

(** A sequence of send attempts, each with its payload and with whether the
    host's [send] would throw if it were called. *)
Fixpoint send_all (attempts : list (string * bool)) : Js unit :=
  match attempts with
  | [] => mret tt
  | (imageData, throws) :: rest =>
      send_frame imageData throws;; send_all rest
  end.

(** A capture step gets past its two guards: the video element is there and
    neither paused nor ended, and both canvases give a 2D context. *)
Definition video_active (s : State) : bool :=
  videoRef (refs s) && negb (paused (video (browser s)))
  && negb (ended (video (browser s))).

Definition contexts_available (s : State) : bool :=
  context2d (hiddenCanvas (browser s)) && context2d (displayCanvas (browser s)).

(** Some call of the capture step's [try] block throws. *)
Definition capture_throws (s : State) (env : CaptureEnv) : bool :=
  drawHidden_throws env
  || (isComparingRef (refs s) && drawDisplay_throws env)
  || negb (bool_decide (is_Some (toDataURL_result env)))
  || (socket_open s && send_throws env).

Definition is_send (e : Effect) : bool :=
  match e with
  | WsSend _ _ => true
  | _ => false
  end.

(** Pending reconnect timers are known to the effect: the only timer that
    can be pending is the one held in [reconnectTimeout], and the browser has
    not handed out its next id yet. *)
Definition timer_inv (s : State) : Prop :=
  (forall id d, timers (browser s) !! id = Some d ->
                reconnectTimeout (closure s) = Some id) /\
  (forall id, reconnectTimeout (closure s) = Some id ->
              (id < nextTimer (browser s))%nat).

(** One logical connection: a socket that is not CLOSED is the one in
    [wsRef] and no reconnect timer is pending beside it; and whenever the send
    guard would let a frame through, the connected flag is set. *)
Definition connection_inv (s : State) : Prop :=
  (forall k r, sockets (browser s) !! k = Some r -> r <> CLOSED ->
               wsRef (refs s) = Some k /\ timers (browser s) = ∅) /\
  (socket_open s = true -> isConnected (hooks s) = true).

(** What goes over the wire: every socket is opened on [url], every frame
    sent is the serialisation of the string [toDataURL] has just returned. *)
Definition quiet (e : Effect) : bool :=
  match e with
  | NewWebSocket _ | WsSend _ _ => false
  | _ => true
  end.

Inductive wire_ok (url : string) : list Effect -> Prop :=
| wire_nil : wire_ok url []
| wire_connect l :
    wire_ok url l -> wire_ok url (NewWebSocket url :: l)
| wire_frame l q d k :
    wire_ok url (ToDataURL "image/jpeg" q (Some d) :: l) ->
    wire_ok url (WsSend k (JSON_stringify_frame "frame" d)
                   :: ToDataURL "image/jpeg" q (Some d) :: l)
| wire_quiet l e :
    wire_ok url l -> quiet e = true -> wire_ok url (e :: l).

(** The throughput figure of a report: [Math.round(fps * 10) / 10] with
    [fps = (count / elapsed) * 1000], [elapsed] in milliseconds. *)
Definition reported_fps (count elapsed : Z) : Q :=
  let fps := fmul (fdiv (inject_Z count) (inject_Z elapsed)) 1000 in
  fdiv (inject_Z (Math_round (fmul fps 10))) 10.

(** ** The camera controls (lines 139-170) *)

(** The stream shown by the video element, as its tracks, and whether the
    element's [onloadedmetadata] handler is the one of [startCamera]. *)
Inductive TrackState : Type := Live | Stopped.

Record Camera : Type := {
  srcObject : option (list TrackState);
  metadataHandler : bool
}.

(** [startCamera] from the point where [getUserMedia] settles, with the
    stream it resolved to or the error it rejected with. *)
Definition startCamera (outcome : exn + list TrackState) (c : Camera)
    : Js Camera :=
  try_catch
    (stream ← lift outcome;
     attached ← gets (fun s => videoRef (refs s));
     setError JNull;;
     mret (if (attached : bool)
           then {| srcObject := Some stream; metadataHandler := true |}
           else c))
    (fun err =>
       text ← String_exn err;
       setError (JStr (String.append "Failed to access camera: " text));;
       setIsStreaming false;;
       mret c).

Definition stopCamera (c : Camera) : Js Camera :=
  attached ← gets (fun s => videoRef (refs s));
  setIsStreaming false;;
  mret (if (attached : bool)
        then match srcObject c with
             | Some tracks =>
                 {| srcObject := Some (map (fun _ => Stopped) tracks);
                    metadataHandler := metadataHandler c |}
             | None => c
             end
        else c).

(** ** What the component renders (lines 255-375) *)

(** JavaScript truthiness, as [{error && ...}] reads it. *)
Definition truthy (v : jsval) : bool :=
  match v with
  | JUndefined | JNull => false
  | JBool b => b
  | JNum q => negb (Qeq_bool q 0)
  | JStr s => negb (String.eqb s "")
  | JArr _ | JObj _ => true
  end.

(** What React accepts as a child: anything but a plain object, also inside
    arrays. *)
Fixpoint valid_child (v : jsval) : bool :=
  match v with
  | JObj _ => false
  | JArr xs => forallb valid_child xs
  | _ => true
  end.

Inductive RenderError : Type :=
| ToFixedTypeError      (* [stats.processingTime.toFixed] is not a function *)
| InvalidChild.         (* objects are not valid as a React child *)

(** [{error && <div>... {error}</div>}] *)
Inductive Slot : Type :=
| Banner (child : jsval)
| Bare (v : jsval).

Record View : Type := {
  statusText : string;
  errorSlot : Slot;
  overlay : string;
  fpsText : Q;
  latText : string;
  comparisonLabel : bool;
  startDisabled : bool;
  stopDisabled : bool;
  compareDisabled : bool;
  framesText : jsval;
  avgLatencyText : string;
  statusLine : string
}.

Section Render.

(** [String(x)] for numbers of 1e21 and more, where [toFixed] gives up
    fixed notation; the host's. *)
Variable Number_toString : Q -> string.

(** [x.toFixed(1)] *)
Definition toFixed1 (x : Q) : string :=
  if Qle_bool (inject_Z (10 ^ 21)) (Qabs x) then Number_toString x
  else
    let n := Qfloor (Qabs x * 10 + (1 # 2))%Q in
    String.append (if Qle_bool 0 x then "" else "-")
      (String.append (pretty (n / 10))
         (String.append "." (pretty (n mod 10)))).

(** [v.toFixed(1)] on a value of any type. *)
Definition toFixed (v : jsval) : RenderError + string :=
  match v with
  | JNum x => inr (toFixed1 x)
  | _ => inl ToFixedTypeError
  end.

Definition render (h : Hooks) : RenderError + View :=
  match toFixed (processingTime (stats h)) with
  | inl e => inl e
  | inr latency =>
      if negb (truthy (error h)) || valid_child (error h) then
        if valid_child (frameCount (stats h)) then
          inr {| statusText :=
                   if isConnected h then "CONNECTED" else "CONNECTING...";
                 errorSlot :=
                   if truthy (error h) then Banner (error h)
                   else Bare (error h);
                 overlay :=
                   if isStreaming h then "▶ STREAMING" else "■ IDLE";
                 fpsText := fps (stats h);
                 latText := String.append latency "ms";
                 comparisonLabel := isComparing h;
                 startDisabled := isStreaming h || negb (isConnected h);
                 stopDisabled := negb (isStreaming h);
                 compareDisabled := negb (isStreaming h);
                 framesText := frameCount (stats h);
                 avgLatencyText := String.append latency "ms";
                 statusLine :=
                   if isStreaming h then "ENHANCING" else "READY" |}
        else inl InvalidChild
      else inl InvalidChild
  end.

End Render.

(** Drawing on the display canvas. *)
Definition touches_display (e : Effect) : bool :=
  match e with
  | DrawVideo DisplaySurface _ _ | FillText DisplaySurface _ _ _
  | DrawImage _ _ _ => true
  | _ => false
  end.

(** Both canvases have the capture size. *)
Definition capture_sized (s : State) : Prop :=
  width (hiddenCanvas (browser s)) = CAPTURE_WIDTH /\
  height (hiddenCanvas (browser s)) = CAPTURE_HEIGHT /\
  width (displayCanvas (browser s)) = CAPTURE_WIDTH /\
  height (displayCanvas (browser s)) = CAPTURE_HEIGHT.

(** No socket is alive and no reconnect is pending. *)
Definition disconnected_for_good (s : State) : Prop :=
  timers (browser s) = ∅ /\
  forall k r, sockets (browser s) !! k = Some r -> r = CLOSED.

(** A server that keeps to the wire protocol: [processing_time_ms] and
    [frame_count] of an 'enhanced' message are numbers, the [message] of an
    'error' message is a string. *)
Definition is_number (v : jsval) : bool :=
  match v with
  | JNum _ => true
  | _ => false
  end.

Definition is_string (v : jsval) : bool :=
  match v with
  | JStr _ => true
  | _ => false
  end.

(** What the page needs to render: a numeric processing time, and children
    React accepts. *)
Definition renderable (h : Hooks) : bool :=
  is_number (processingTime (stats h))
  && valid_child (frameCount (stats h))
  && (negb (truthy (error h)) || valid_child (error h)).

Definition well_formed_message (data : option jsval) : bool :=
  if message_kind data "enhanced" then
    is_number (field data "processing_time_ms")
    && is_number (field data "frame_count")
  else if message_kind data "error" then is_string (field data "message")
  else true.

Definition well_formed_event (e : Event) : bool :=
  match e with
  | SocketMessage _ data _ => well_formed_message data
  | _ => true
  end.

(** Characters that [JSON.stringify] copies as they are (those of a base64
    data URI among them). *)
Definition plain (c : Ascii.ascii) : bool :=
  let n := Ascii.nat_of_ascii c in
  Nat.leb 32 n && negb (Nat.eqb n 34) && negb (Nat.eqb n 92).

Fixpoint all_plain (s : string) : bool :=
  match s with
  | EmptyString => true
  | String c rest => plain c && all_plain rest
  end.

(** ** Sample pages and inputs *)

Definition playing : Video := {| paused := false; ended := false |}.
Definition canvas_2d : Canvas :=
  {| width := 1280; height := 720; context2d := true |}.
Definition canvas_without_context : Canvas :=
  {| width := 300; height := 150; context2d := false |}.

(** The wording of one host. *)
Definition host_text (e : exn) : string :=
  match e with
  | SyntaxError => "SyntaxError: The URL is invalid."
  | TypeError => "TypeError: Cannot read properties of null"
  | DOMException => "NotAllowedError: Permission denied"
  end.

(** A page served over https whose first socket was created. *)
Definition page : State :=
  mounted "https:" "localhost" host_text playing canvas_2d canvas_2d 0 true.

Definition enhanced_message : option jsval :=
  Some (JObj [("type", JStr "enhanced");
              ("image", JStr "data:image/jpeg;base64,AAAA");
              ("processing_time_ms", JNum 50);
              ("frame_count", JNum 10)]).

Definition error_message : option jsval :=
  Some (JObj [("type", JStr "error"); ("message", JStr "OOM")]).

Definition calm : CaptureEnv :=
  {| drawHidden_throws := false; drawDisplay_throws := false;
     toDataURL_result := Some "data:image/jpeg;base64,BBBB";
     send_throws := false |}.

(** The same page, connected. *)
Definition connected_page : State := run page [SocketOpen 0].

(** Connected and streaming, with the COMPARE button held down. *)
Definition comparing_page : State :=
  run page [SocketOpen 0; LoadedMetadata calm; MouseCompare true;
            ComparingEffect].

(** An enhanced frame arrived and its image is being decoded when the
    COMPARE button is pressed. *)
Definition compare_pressed_mid_decode : State :=
  run page [SocketOpen 0; LoadedMetadata calm;
            SocketMessage 0 enhanced_message 100;
            MouseCompare true; ComparingEffect].

(** The component was unmounted while the COMPARE button was down; the
    socket it closed was reported closed, the reconnect timer fired and the
    new socket opened. *)
Definition unmounted_page : State :=
  run comparing_page [Unmount; SocketLost 0 false; TimerFires 1 true;
                      SocketOpen 1].

(** A page whose hidden canvas gives no 2D context. *)
Definition page_without_hidden_context : State :=
  run (mounted "http:" "localhost" host_text playing canvas_without_context
         canvas_2d 0 true)
      [SocketOpen 0].

(** A page whose display canvas gives no 2D context, after its socket was
    closed by the server. *)
Definition page_without_display_context : State :=
  run (mounted "http:" "localhost" host_text playing canvas_2d
         canvas_without_context 0 true)
      [SocketOpen 0; SocketLost 0 false].

(** Streaming was started, then the server closed the socket. *)
Definition disconnected_page : State :=
  run page [SocketOpen 0; LoadedMetadata calm; SocketLost 0 false].

(** Mounted, connected, then unmounted (the cleanup closes the socket), then
    the browser reports the close. *)
Definition torn_down_page : State := run page [SocketOpen 0; Unmount].
Definition after_teardown_close : State :=
  run page [SocketOpen 0; Unmount; SocketLost 0 false].

(** An 'enhanced' message without its processing time, and an 'error'
    message whose text is an object. *)
Definition enhanced_message_without_time : option jsval :=
  Some (JObj [("type", JStr "enhanced");
              ("image", JStr "data:image/jpeg;base64,AAAA");
              ("frame_count", JNum 10)]).

Definition error_message_with_object : option jsval :=
  Some (JObj [("type", JStr "error");
              ("message", JObj [("code", JNum 507)])]).

(** Ten 'enhanced' messages within 1200 ms of the first render, nine of them
    in the first second. *)
Definition ten_messages : list Event :=
  map (fun now => SocketMessage 0 enhanced_message now)
    [100; 200; 300; 400; 500; 600; 700; 800; 900; 1200].

(** * Properties *)

Arguments Math_round : simpl never.
Arguments pow2 : simpl never.
Arguments double : simpl never.
Arguments fmul : simpl never.
Arguments fdiv : simpl never.
Arguments wsUrl : simpl never.
Arguments JSON_stringify_frame : simpl never.
Arguments field : simpl never.

Ltac js_unfold :=
  repeat progress
    unfold exec, onmessage, onopen, onerror, onclose, onload, cleanup,
      connectWebSocket, connection_lost, captureFrame, captureFrame_try,
      startFrameCapture, onloadedmetadata, syncComparing, send_frame,
      toDataURL, drawImage_video, new_Image, new_WebSocket, ws_send,
      ws_close, readyState, setTimeout, clearTimeout, requestAnimationFrame,
      JSON_parse, setIsConnected, setIsStreaming, setIsComparing, setStats,
      setError, String_exn, console_log, console_error, emit, try_catch,
      lift, gets,
      modify, throw, mbind, Js_bind, mret, Js_ret.

Ltac js_simpl :=
  cbn -[Qmult Qdiv inject_Z Z.leb Z.ltb Z.sub Z.add insert delete lookup
        app length].

(** Case analysis on whatever the code branches on next. *)
Ltac js_branch :=
  match goal with
  | |- context [match ?x with _ => _ end] =>
      lazymatch x with
      | context [match _ with _ => _ end] => fail
      | _ => destruct x eqn:?
      end
  end.

Ltac js_run := js_unfold; js_simpl; repeat (js_branch; js_simpl).

(** All the ways one task can go. *)
Ltac step_cases e :=
  destruct e; unfold step, set_readyState, settle_image; js_run.

(** Closed facts about sample pages, by evaluation. *)
Ltac by_evaluation :=
  cbv zeta;
  repeat match goal with |- _ /\ _ => split end;
  vm_compute;
  first [reflexivity | discriminate | intros; discriminate].

Lemma strict_eq_str_true v lit : strict_eq_str v lit = true -> v = JStr lit.
Proof.
  destruct v; simpl; try discriminate.
  intros H. apply String.eqb_eq in H. congruence.
Qed.

(** A message of a given kind is a parsed value whose [type] is that string. *)
Lemma message_kind_inv data kind :
  message_kind data kind = true ->
  exists response, data = Some response /\
                   get_prop response "type" = inr (JStr kind).
Proof.
  unfold message_kind. destruct data as [response|]; [|discriminate].
  destruct (get_prop response "type") as [|type] eqn:E; [discriminate|].
  intros H. apply strict_eq_str_true in H. subst. eauto.
Qed.

(** Once [response.type] could be read, every other property can. *)
Lemma get_prop_total response k v :
  get_prop response k = inr v ->
  forall k', get_prop response k' = inr (field (Some response) k').
Proof.
  intros H k'. unfold field. destruct response; simpl in *; congruence.
Qed.

(** ** Messages the handler ignores or reports *)

(** C9. An 'enhanced' message that arrives while the display canvas element
    does not exist is ignored entirely: the handler leaves the whole state as
    it was, so no image decode is started, the frame count is not incremented
    and the exposed stats are not updated. *)
Theorem enhanced_ignored_without_display_canvas s data now :
  message_kind data "enhanced" = true ->
  displayCanvasRef (refs s) = false ->
  onmessage data now s = (Ok tt, s).
Proof.
  intros Hk Hd. apply message_kind_inv in Hk as (r & -> & Hty).
  js_unfold. js_simpl. rewrite Hty. js_simpl. rewrite Hd. js_simpl.
  reflexivity.
Qed.

Lemma enhanced_ignored_without_display_canvas_witness :
  message_kind enhanced_message "enhanced" = true /\
  displayCanvasRef (refs unmounted_page) = false /\
  onmessage enhanced_message 5000 unmounted_page = (Ok tt, unmounted_page).
Proof.
  split; [vm_compute; reflexivity|]. split; [vm_compute; reflexivity|].
  apply enhanced_ignored_without_display_canvas; vm_compute; reflexivity.
Defined.

(** C7. An 'error' message puts the string it carries, unchanged, in the
    user-visible error state; the connection state (the flag, the socket
    reference and the sockets' ready states, the reconnect timers) and the
    exposed stats stay as they were, as does everything else but the
    console. *)
Theorem error_message_surfaced s data now :
  message_kind data "error" = true ->
  let s' := exec (onmessage data now) s in
  error (hooks s') = field data "message" /\
  isConnected (hooks s') = isConnected (hooks s) /\
  stats (hooks s') = stats (hooks s) /\
  isStreaming (hooks s') = isStreaming (hooks s) /\
  isComparing (hooks s') = isComparing (hooks s) /\
  refs s' = refs s /\
  closure s' = closure s /\
  sockets (browser s') = sockets (browser s) /\
  timers (browser s') = timers (browser s) /\
  images (browser s') = images (browser s) /\
  effects (browser s') = ConsoleError "Server error:" :: effects (browser s).
Proof.
  intros Hk. apply message_kind_inv in Hk as (r & -> & Hty).
  pose proof (get_prop_total _ _ _ Hty "message") as Hm.
  js_unfold. js_simpl. rewrite Hty. js_simpl.
  destruct (displayCanvasRef (refs s)); js_simpl; rewrite Hm; js_simpl;
    repeat split; destruct (refs s); reflexivity.
Qed.

Lemma error_message_surfaced_witness :
  message_kind error_message "error" = true /\
  error (hooks (exec (onmessage error_message 5000) connected_page))
    = JStr "OOM".
Proof.
  split; [reflexivity|].
  exact (proj1 (error_message_surfaced connected_page error_message 5000
                  eq_refl)).
Defined.

(** ** The statistics window *)



(** *** Rounding to binary64 *)










(** *** The reported throughput *)




(** 49 frames in 20000 ms are 2.45 frames per second; the product
    [fps * 10] falls just below 24.5 in binary64, and the figure stored is
    2.4. *)
Example report_at_a_tie :
  reported_fps 49 20000 = double (24 # 10) /\
  (inject_Z 49 / (inject_Z 20000 / 1000) == 245 # 100)%Q /\
  ~ (reported_fps 49 20000 == 25 # 10)%Q.
Proof.
  split; [vm_compute; reflexivity|]. split; [vm_compute; reflexivity|].
  vm_compute. discriminate.
Qed.




(** ** Compare mode *)

Lemma reachable_run s events : reachable s -> reachable (run s events).
Proof.
  revert s. induction events as [|e events IH]; intros s Hs; [exact Hs|].
  apply IH. constructor. exact Hs.
Qed.

Lemma reachable_page : reachable page.
Proof. constructor. Qed.

(** The decode of an image that completes draws it, stretched to the display
    canvas, whatever the compare flag is by then. *)
Lemma decoded_image_is_drawn s i src :
  images (browser s) !! i = Some (Some src) ->
  displayCanvasRef (refs s) = true ->
  context2d (displayCanvas (browser s)) = true ->
  effects (browser (step s (ImageLoaded i)))
  = DrawImage i (width (displayCanvas (browser s)))
      (height (displayCanvas (browser s)))
    :: effects (browser s).
Proof.
  intros Hi Hd Hc. unfold step. rewrite Hi.
  unfold settle_image. js_unfold. js_simpl. rewrite Hd, Hc. reflexivity.
Qed.

(** X23. The compare flag is read when an 'enhanced' message arrives, with
    the display canvas present: if it is true, no decode of the image is
    started and nothing is drawn or logged, so that image is never drawn,
    while the frame is counted; if it is false (in particular right after
    it returned to false), a decode of the image is started, and when that
    decode completes the image is drawn to the display canvas, provided the
    canvas and its 2D context are available then. *)
Theorem compare_mode_rendering s data now :
  message_kind data "enhanced" = true ->
  displayCanvasRef (refs s) = true ->
  let s' := exec (onmessage data now) s in
  let i := length (images (browser s)) in
  if isComparingRef (refs s) then
    images (browser s') = images (browser s) /\
    effects (browser s') = effects (browser s) /\
    frameCountRef (refs s') = frameCountRef (refs s) + 1
  else
    images (browser s') = images (browser s) ++ [Some (field data "image")] /\
    effects (browser s') = effects (browser s) /\
    images (browser s') !! i = Some (Some (field data "image")) /\
    (forall later,
        images (browser later) !! i = Some (Some (field data "image")) ->
        displayCanvasRef (refs later) = true ->
        context2d (displayCanvas (browser later)) = true ->
        effects (browser (step later (ImageLoaded i)))
        = DrawImage i (width (displayCanvas (browser later)))
            (height (displayCanvas (browser later)))
          :: effects (browser later)).
Proof.
  intros Hk Hd. apply message_kind_inv in Hk as (r & -> & Hty).
  pose proof (get_prop_total _ _ _ Hty) as Hfield.
  js_unfold. js_simpl. rewrite Hty. js_simpl. rewrite Hd. js_simpl.
  destruct (isComparingRef (refs s)); js_simpl; [auto|].
  rewrite (Hfield "image"). js_simpl.
  assert ((images (browser s) ++ [Some (field (Some r) "image")])
            !! length (images (browser s))
          = Some (Some (field (Some r) "image"))) as Hlast
    by (rewrite lookup_app_r, Nat.sub_diag; [reflexivity|lia]).
  destruct (1000 <=? now - lastStatsTimeRef (refs s))%Z; js_simpl.
  - rewrite (Hfield "processing_time_ms"). js_simpl.
    rewrite (Hfield "frame_count"). js_simpl.
    repeat split; [exact Hlast|].
    intros later; apply decoded_image_is_drawn.
  - repeat split; [exact Hlast|].
    intros later; apply decoded_image_is_drawn.
Qed.

Lemma compare_mode_rendering_witness :
  message_kind enhanced_message "enhanced" = true /\
  displayCanvasRef (refs comparing_page) = true /\
  images (browser (exec (onmessage enhanced_message 5000) comparing_page))
    = images (browser comparing_page) /\
  frameCountRef (refs (exec (onmessage enhanced_message 5000) comparing_page))
    = frameCountRef (refs comparing_page) + 1.
Proof.
  assert (isComparingRef (refs comparing_page) = true) as Hflag
    by (vm_compute; reflexivity).
  assert (displayCanvasRef (refs comparing_page) = true) as Hcanvas
    by (vm_compute; reflexivity).
  split; [reflexivity|]. split; [exact Hcanvas|].
  pose proof (compare_mode_rendering comparing_page enhanced_message 5000
                eq_refl Hcanvas) as H.
  cbv zeta in H. rewrite Hflag in H.
  destruct H as (Hi & _ & Hc).
  split; [exact Hi | exact Hc].
Defined.

(** C5 at its failing input.  The page is mounted, connected and streaming.
    An 'enhanced' message arrives while the compare flag is false, so the
    decode of its image is started; the COMPARE button is pressed and the
    flag becomes true; then the decode completes, and [img.onload], which
    does not read the flag, draws the enhanced image on the display canvas
    while the flag is true.  The same happens in every state in which a
    decode is in flight when the flag is true. *)
Theorem enhanced_image_drawn_while_comparing :
  let s := compare_pressed_mid_decode in
  (reachable s /\
   isComparing (hooks s) = true /\
   isComparingRef (refs s) = true /\
   images (browser s) !! 0%nat = Some (Some (field enhanced_message "image")) /\
   effects (browser (step s (ImageLoaded 0)))
   = DrawImage 0 640 360 :: effects (browser s) /\
   isComparingRef (refs (step s (ImageLoaded 0))) = true) /\
  (forall s i src,
      isComparingRef (refs s) = true ->
      images (browser s) !! i = Some (Some src) ->
      displayCanvasRef (refs s) = true ->
      context2d (displayCanvas (browser s)) = true ->
      effects (browser (step s (ImageLoaded i)))
      = DrawImage i (width (displayCanvas (browser s)))
          (height (displayCanvas (browser s)))
        :: effects (browser s) /\
      isComparingRef (refs (step s (ImageLoaded i))) = true).
Proof.
  cbv zeta. split.
  - split; [apply reachable_run, reachable_page|]. by_evaluation.
  - intros s i src Hflag Hi Hd Hc.
    split; [apply (decoded_image_is_drawn s i src Hi Hd Hc)|].
    unfold step. rewrite Hi. unfold settle_image. js_unfold. js_simpl.
    rewrite Hd, Hc. exact Hflag.
Qed.

(** ** The capture loop *)

(** [frameSkip] never leaves 0, as [FRAME_SKIP_RATE] is 0. *)
Lemma frameSkip_step s e :
  frameSkip (closure s) = 0 -> frameSkip (closure (step s e)) = 0.
Proof.
  intros H. step_cases e; try assumption; try reflexivity.
  all: try (rewrite H in *; discriminate).
  all: match goal with
       | Hlt : (_ <? FRAME_SKIP_RATE)%Z = true |- _ =>
           vm_compute in Hlt; discriminate
       end.
Qed.

Lemma frameSkip_reachable s : reachable s -> frameSkip (closure s) = 0.
Proof.
  induction 1 as [protocol hostname text v h d now ok|s e _ IH].
  - destruct ok; reflexivity.
  - apply frameSkip_step, IH.
Qed.

(** The effects a callback added in front of [base]. *)
Ltac prefix_of l base :=
  lazymatch l with
  | base => constr:(@nil Effect)
  | ?x :: ?l' => let p := prefix_of l' base in constr:(x :: p)
  end.

(** C2, as amended.  A capture step that finds the video element absent,
    paused or ended returns at once and changes nothing.  Otherwise, if
    either canvas gives no 2D context, the step logs an error and returns
    without rescheduling.  Otherwise the step reschedules itself exactly
    once, and if any call of its [try] block throws, the error is logged as
    the last thing the step does and the abandoned step has sent nothing. *)
Theorem capture_step_after_error s env :
  reachable s ->
  let s' := exec (captureFrame env) s in
  if video_active s then
    if contexts_available s then
      animationFrames (browser s') = S (animationFrames (browser s)) /\
      (capture_throws s env = true ->
       exists done,
         effects (browser s')
         = ConsoleError "Error during frame capture:"
             :: done ++ effects (browser s) /\
         Forall (fun e => is_send e = false) done)
    else
      animationFrames (browser s') = animationFrames (browser s) /\
      effects (browser s')
      = ConsoleError "Failed to get canvas context" :: effects (browser s)
  else s' = s.
Proof.
  intros Hr. apply frameSkip_reachable in Hr.
  unfold video_active, contexts_available, capture_throws, socket_open.
  destruct env as [dh dd result st].
  js_unfold. js_simpl.
  destruct (videoRef (refs s)), (paused (video (browser s))),
    (ended (video (browser s))); js_simpl; try reflexivity.
  destruct (context2d (hiddenCanvas (browser s))),
    (context2d (displayCanvas (browser s))); js_simpl; try (split; reflexivity).
  rewrite Hr. change (0 <? FRAME_SKIP_RATE)%Z with false. js_simpl.
  repeat (js_branch; js_simpl).
  all: split; [reflexivity|].
  all: try discriminate.
  all: intros _.
  all: match goal with
       | |- exists done, _ :: ?l = _ :: done ++ ?base /\ _ =>
           let p := prefix_of l base in exists p
       end.
  all: split; [reflexivity|repeat constructor].
Qed.

Lemma capture_step_after_error_witness :
  reachable connected_page /\
  animationFrames
    (browser (exec (captureFrame
                      {| drawHidden_throws := true;
                         drawDisplay_throws := false;
                         toDataURL_result := None;
                         send_throws := false |}) connected_page))
  = S (animationFrames (browser connected_page)).
Proof.
  assert (reachable connected_page) as Hr
    by (apply reachable_run, reachable_page).
  split; [exact Hr|].
  pose proof (capture_step_after_error connected_page
                {| drawHidden_throws := true; drawDisplay_throws := false;
                   toDataURL_result := None; send_throws := false |} Hr) as H.
  cbv zeta in H.
  assert (video_active connected_page = true) as Ev
    by (vm_compute; reflexivity).
  assert (contexts_available connected_page = true) as Ec
    by (vm_compute; reflexivity).
  rewrite Ev, Ec in H. exact (proj1 H).
Defined.

(** C2 as stated fails: with the camera playing but no 2D context on the
    hidden canvas, the first capture step logs the error and does not
    reschedule, so no further step ever runs. *)
Lemma capture_stops_without_context :
  let s := step page_without_hidden_context (LoadedMetadata calm) in
  video_active s = true /\
  contexts_available s = false /\
  head (effects (browser s)) = Some (ConsoleError "Failed to get canvas context") /\
  animationFrames (browser s) = 0%nat /\
  step s (AnimationFrame calm) = s.
Proof.
  by_evaluation.
Qed.

(** The capture step does not look at the [useState] cells at all. *)
Lemma captureFrame_ignores_hooks env f s :
  exec (captureFrame env) (upd_hooks f s)
  = upd_hooks f (exec (captureFrame env) s).
Proof.
  destruct env as [dh dd result st].
  js_run; reflexivity.
Qed.

(** It reschedules exactly when it gets past its two guards. *)
Lemma captureFrame_exit env s :
  animationFrames (browser (exec (captureFrame env) s))
  = if video_active s && contexts_available s
    then S (animationFrames (browser s))
    else animationFrames (browser s).
Proof.
  unfold video_active, contexts_available.
  destruct env as [dh dd result st].
  js_unfold. js_simpl.
  destruct (videoRef (refs s)), (paused (video (browser s))),
    (ended (video (browser s))); js_simpl; try reflexivity.
  destruct (context2d (hiddenCanvas (browser s))),
    (context2d (displayCanvas (browser s))); js_simpl; try reflexivity.
  repeat (js_branch; js_simpl); reflexivity.
Qed.

(** C10, as amended.  Connection loss does not stop the capture loop: with
    the socket not open, whatever the streaming and connected flags are, a
    capture step that finds the video element present, neither paused nor
    ended, and both 2D contexts available, and whose canvas calls do not
    throw, draws the frame (and the original, in compare mode), encodes it,
    sends nothing and reschedules itself.  The step never reads the
    [useState] cells, and it fails to reschedule exactly when the video
    element is absent, paused or ended or a 2D context is unavailable. *)
Theorem capture_continues_when_disconnected s env imageData :
  reachable s ->
  socket_open s = false ->
  video_active s = true ->
  contexts_available s = true ->
  drawHidden_throws env = false ->
  isComparingRef (refs s) && drawDisplay_throws env = false ->
  toDataURL_result env = Some imageData ->
  let s' := exec (captureFrame env) s in
  (effects (browser s')
   = ToDataURL "image/jpeg" JPEG_QUALITY (Some imageData)
       :: (if isComparingRef (refs s)
           then [FillText DisplaySurface "ORIGINAL" 10 25;
                 DrawVideo DisplaySurface CAPTURE_WIDTH CAPTURE_HEIGHT]
           else [])
       ++ DrawVideo HiddenSurface CAPTURE_WIDTH CAPTURE_HEIGHT
       :: effects (browser s)) /\
  animationFrames (browser s') = S (animationFrames (browser s)) /\
  hooks s' = hooks s /\
  sockets (browser s') = sockets (browser s) /\
  (forall t f, exec (captureFrame env) (upd_hooks f t)
               = upd_hooks f (exec (captureFrame env) t)) /\
  (forall t, animationFrames (browser (exec (captureFrame env) t))
             = animationFrames (browser t)
             <-> video_active t && contexts_available t = false).
Proof.
  intros Hr Hclosed Hv Hc Hdh Hdd Hurl s'.
  assert (animationFrames (browser s') = S (animationFrames (browser s)))
    as Hraf.
  { unfold s'. rewrite captureFrame_exit, Hv, Hc. reflexivity. }
  split; [|split; [exact Hraf|]].
  2: split; [|split; [|split]].
  - apply frameSkip_reachable in Hr.
    unfold s'. clear s' Hraf.
    unfold video_active, contexts_available, socket_open in *.
    destruct env as [dh dd result st]. simpl in Hdh, Hdd, Hurl. subst.
    js_unfold. js_simpl.
    destruct (videoRef (refs s)), (paused (video (browser s))),
      (ended (video (browser s))); try discriminate.
    js_simpl.
    destruct (context2d (hiddenCanvas (browser s))),
      (context2d (displayCanvas (browser s))); try discriminate.
    js_simpl. rewrite Hr. change (0 <? FRAME_SKIP_RATE)%Z with false.
    js_simpl.
    destruct (isComparingRef (refs s)); simpl in Hdd; subst; js_simpl.
    all: destruct (wsRef (refs s)) as [k|]; js_simpl; try reflexivity.
    all: rewrite Hclosed; reflexivity.
  - unfold s'. clear s' Hraf.
    unfold video_active, contexts_available, socket_open in *.
    destruct env as [dh dd result st]. js_run; reflexivity.
  - unfold s'. clear s' Hraf.
    destruct env as [dh dd result st]. js_run; reflexivity.
  - intros t f. apply captureFrame_ignores_hooks.
  - intros t. rewrite captureFrame_exit.
    destruct (video_active t && contexts_available t); split;
      intros H; try reflexivity; try discriminate; lia.
Qed.

Lemma capture_continues_when_disconnected_witness :
  reachable disconnected_page /\
  socket_open disconnected_page = false /\
  video_active disconnected_page = true /\
  contexts_available disconnected_page = true /\
  animationFrames (browser (exec (captureFrame calm) disconnected_page))
  = S (animationFrames (browser disconnected_page)).
Proof.
  assert (reachable disconnected_page) as Hr
    by (apply reachable_run, reachable_page).
  assert (socket_open disconnected_page = false) as Ho
    by (vm_compute; reflexivity).
  assert (video_active disconnected_page = true) as Ev
    by (vm_compute; reflexivity).
  assert (contexts_available disconnected_page = true) as Ec
    by (vm_compute; reflexivity).
  assert (isComparingRef (refs disconnected_page)
          && drawDisplay_throws calm = false) as Ed
    by (vm_compute; reflexivity).
  split; [exact Hr|]. split; [exact Ho|]. split; [exact Ev|].
  split; [exact Ec|].
  exact (proj1 (proj2 (capture_continues_when_disconnected disconnected_page
                         calm _ Hr Ho Ev Ec eq_refl Ed eq_refl))).
Defined.

(** C10 as stated fails: after the socket was closed and the streaming flag
    cleared, with the video neither paused nor ended, a capture step that
    finds no 2D context on the display canvas draws nothing, encodes
    nothing and does not reschedule. *)
Lemma capture_exits_though_video_plays :
  let s := page_without_display_context in
  let s' := exec (captureFrame calm) s in
  socket_open s = false /\
  isStreaming (hooks s) = false /\
  paused (video (browser s)) = false /\
  ended (video (browser s)) = false /\
  effects (browser s')
  = ConsoleError "Failed to get canvas context" :: effects (browser s) /\
  animationFrames (browser s') = animationFrames (browser s).
Proof.
  by_evaluation.
Qed.

(** ** Reconnection *)

Ltac timer_facts H1 H2 :=
  intros;
  repeat match goal with
    | H : <[_:=_]> _ !! _ = Some _ |- _ =>
        apply lookup_insert_Some in H as [[? ?]|[? H]]
    | H : delete _ _ !! _ = Some _ |- _ =>
        apply lookup_delete_Some in H as [? H]
    | H : timers _ !! _ = Some _ |- _ => apply H1 in H
    | H : _ = Some _ |- _ => pose proof (H2 _ H); clear H2
    end;
  simplify_eq; try reflexivity; try congruence; try lia.

Lemma timer_inv_step s e : timer_inv s -> timer_inv (step s e).
Proof.
  intros [H1 H2]. unfold timer_inv.
  step_cases e; try (split; assumption).
  all: split; [intros id0 d0 | intros id0].
  all: timer_facts H1 H2.
  all: try (pose proof (H2 _ eq_refl); lia).
Qed.

Lemma timer_inv_reachable s : reachable s -> timer_inv s.
Proof.
  induction 1 as [protocol hostname text v h d now ok|s e _ IH].
  - destruct ok; split; intros id; vm_compute; intros; discriminate.
  - apply timer_inv_step, IH.
Qed.


(** Under the invariant, cancelling the timer the effect holds leaves none. *)
Lemma timer_inv_cleared s :
  timer_inv s ->
  match reconnectTimeout (closure s) with
  | Some id => delete id (timers (browser s))
  | None => timers (browser s)
  end = ∅.
Proof.
  intros [H1 _]. apply map_empty. intros i.
  destruct (reconnectTimeout (closure s)) as [id|] eqn:E.
  - destruct (delete id (timers (browser s)) !! i) as [d|] eqn:Ed;
      [|reflexivity].
    apply lookup_delete_Some in Ed as [Hne Ed]. apply H1 in Ed. congruence.
  - destruct (timers (browser s) !! i) as [d|] eqn:Ed; [|reflexivity].
    apply H1 in Ed. discriminate.
Qed.

Lemma timer_inv_at_most_one s :
  timer_inv s -> (size (timers (browser s)) <= 1)%nat.
Proof.
  intros Hinv. pose proof (timer_inv_cleared s Hinv) as Hc.
  destruct (reconnectTimeout (closure s)) as [id|].
  - apply (f_equal size) in Hc.
    rewrite map_size_delete, map_size_empty in Hc.
    destruct (timers (browser s) !! id); simpl in Hc; lia.
  - rewrite Hc, map_size_empty. lia.
Qed.

(** The close handler: flags cleared, the old timer cancelled, one new timer
    of 3000 ms. *)
Lemma onclose_reschedules s :
  timer_inv s ->
  let s' := exec onclose s in
  isConnected (hooks s') = false /\
  isStreaming (hooks s') = false /\
  timers (browser s') = {[ nextTimer (browser s) := 3000 ]} /\
  reconnectTimeout (closure s') = Some (nextTimer (browser s)) /\
  sockets (browser s') = sockets (browser s) /\
  protocol (browser s') = protocol (browser s) /\
  hostname (browser s') = hostname (browser s).
Proof.
  intros Hinv. pose proof (timer_inv_cleared s Hinv) as Hc.
  js_unfold. js_simpl.
  destruct (reconnectTimeout (closure s)) as [id|]; js_simpl;
    rewrite Hc, insert_empty; repeat split; reflexivity.
Qed.

(** The error handler reports and marks the connection lost; it schedules
    nothing. *)
Lemma onerror_reports s :
  let s' := exec onerror s in
  isConnected (hooks s') = false /\
  error (hooks s')
  = JStr "Connection error - is the backend running on port 8000?" /\
  effects (browser s') = ConsoleError "WebSocket error:" :: effects (browser s) /\
  timers (browser s') = timers (browser s) /\
  closure s' = closure s /\ refs s' = refs s.
Proof. js_run. repeat split; reflexivity. Qed.

(** C3. Every connection loss on a live socket -- the browser's close task,
    which fires [error] first when the connection failed and then [close] --
    leaves the state Disconnected with exactly one reconnect timer pending,
    of 3000 ms: whatever timer the effect held before is no longer pending,
    the new one is the one the effect now holds, and when it fires no timer
    is left and one connection attempt is made.  In every reachable state at
    most one reconnect timer is pending. *)
Theorem reconnect_scheduled_once s k failed r :
  reachable s ->
  sockets (browser s) !! k = Some r ->
  r <> CLOSED ->
  let s' := step s (SocketLost k failed) in
  let id := nextTimer (browser s) in
  isConnected (hooks s') = false /\
  timers (browser s') = {[ id := 3000 ]} /\
  reconnectTimeout (closure s') = Some id /\
  (forall old, reconnectTimeout (closure s) = Some old ->
               timers (browser s') !! old = None) /\
  (forall ok,
      let s'' := step s' (TimerFires id ok) in
      timers (browser s'') = ∅ /\
      effects (browser s'')
      = (if ok then [] else [ConsoleError "Failed to create WebSocket:"])
          ++ NewWebSocket (wsUrl (protocol (browser s)) (hostname (browser s)))
          :: effects (browser s')) /\
  (forall t, reachable t -> (size (timers (browser t)) <= 1)%nat).
Proof.
  intros Hr Hk Hopen s' id.
  pose proof (timer_inv_reachable s Hr) as Hinv.
  assert (s' = exec onclose
                 (exec (if failed then onerror else mret tt)
                    (set_readyState k CLOSED s))) as Hs'.
  { unfold s', step. rewrite Hk. destruct r; try congruence;
      destruct failed; reflexivity. }
  set (mid := exec (if failed then onerror else mret tt)
                (set_readyState k CLOSED s)) in *.
  assert (timer_inv mid /\ nextTimer (browser mid) = nextTimer (browser s)
          /\ reconnectTimeout (closure mid) = reconnectTimeout (closure s)
          /\ protocol (browser mid) = protocol (browser s)
          /\ hostname (browser mid) = hostname (browser s))
    as (Hmid & Hnext & Hold & Hp & Hh).
  { unfold mid, set_readyState. destruct failed; js_run; repeat split;
      apply Hinv. }
  destruct (onclose_reschedules mid Hmid) as (Hc & _ & Ht & Hrt & _ & Hp' & Hh').
  rewrite <- Hs', Hnext in *. fold id in Ht, Hrt.
  rewrite Hp in Hp'. rewrite Hh in Hh'.
  split; [exact Hc|]. split; [exact Ht|]. split; [exact Hrt|].
  split; [|split].
  - intros old Hsome. rewrite Ht. apply lookup_singleton_ne.
    destruct Hinv as [_ H2]. apply H2 in Hsome. unfold id. lia.
  - intros ok. unfold step. rewrite Ht, lookup_singleton_eq.
    clearbody s'. clear Hs'.
    js_unfold. destruct ok; js_simpl;
      rewrite Ht, Hp', Hh', delete_singleton_eq; split; reflexivity.
  - intros t Ht'. apply timer_inv_at_most_one, timer_inv_reachable, Ht'.
Qed.

Lemma reconnect_scheduled_once_witness :
  reachable connected_page /\
  sockets (browser connected_page) !! 0%nat = Some OPEN /\
  OPEN <> CLOSED /\
  timers (browser (step connected_page (SocketLost 0 true)))
  = {[ nextTimer (browser connected_page) := 3000 ]}.
Proof.
  assert (reachable connected_page) as Hr
    by (apply reachable_run, reachable_page).
  assert (sockets (browser connected_page) !! 0%nat = Some OPEN) as Hk
    by (vm_compute; reflexivity).
  assert (OPEN <> CLOSED) as Hne by discriminate.
  split; [exact Hr|]. split; [exact Hk|]. split; [exact Hne|].
  exact (proj1 (proj2 (reconnect_scheduled_once connected_page 0 true OPEN
                         Hr Hk Hne))).
Defined.

(** ** One connection at a time *)

Lemma is_OPEN_true r : is_OPEN r = true -> r = Some OPEN.
Proof. destruct r as [[]|]; simpl; congruence. Qed.

Ltac lookup_cases :=
  repeat match goal with
    | H : is_OPEN _ = true |- _ => apply is_OPEN_true in H
    | H : <[?k:=_]> ?l !! ?j = Some _ |- _ =>
        apply list_lookup_insert_Some in H as [(? & ? & ?)|[? H]]
    | H : (_ ++ [_]) !! _ = Some _ |- _ =>
        apply lookup_app_Some in H as [H|[? H]]
    | H : [_] !! _ = Some _ |- _ =>
        apply list_lookup_singleton_Some in H as [? ?]
    end.

Ltac use_live K1 :=
  repeat match goal with
    | H : sockets _ !! ?j = Some ?r |- _ =>
        lazymatch goal with
        | _ : wsRef _ = Some j |- _ => fail
        | _ : Some _ = Some j |- _ => fail
        | _ : None = Some j |- _ => fail
        | _ => idtac
        end;
        let Hw := fresh "Hw" in let He := fresh "He" in
        assert (r <> CLOSED) as Hne by (first [discriminate | congruence | assumption]);
        destruct (K1 j r H Hne) as [Hw He]; clear Hne
    end.

Lemma connection_inv_step s e :
  timer_inv s -> connection_inv s -> connection_inv (step s e).
Proof.
  intros Ht [K1 K2]. pose proof (timer_inv_cleared s Ht) as Hc.
  unfold connection_inv, socket_open in *.
  step_cases e; try (split; assumption).
  all: split; [intros k0 r0 Hl Hlive | intros Ho].
  all: lookup_cases; simplify_eq; try congruence; try reflexivity.
  all: use_live K1; simplify_eq; try congruence; try reflexivity; try tauto.
  all: try match goal with
         | He : timers _ = ∅, Hq : timers _ !! _ = Some _ |- _ =>
             rewrite He in Hq; rewrite lookup_empty in Hq; discriminate
         end.
  all: try (split; [reflexivity|]).
  all: try (rewrite delete_empty; reflexivity).
  all: try (split; [f_equal; lia|]; destruct Ht as [H1 _];
            match goal with Hq : timers _ !! _ = Some _ |- _ =>
              rewrite (H1 _ _ Hq) in Hc; exact Hc end).
  all: try match goal with
         | Ho : sockets _ !! _ = Some OPEN |- _ =>
             apply K2;
             try match goal with Hw : wsRef _ = Some _ |- _ => rewrite Hw end;
             rewrite Ho; reflexivity
         end.
  all: try match goal with
         | Ho : sockets _ !! ?n = Some OPEN,
           Hb : is_OPEN (sockets _ !! ?n) = false |- _ =>
             rewrite Ho in Hb; discriminate
         end.
Qed.

Lemma connection_inv_reachable s : reachable s -> connection_inv s.
Proof.
  induction 1 as [protocol hostname text v h d now ok|s e Hs IH].
  - destruct ok; split; vm_compute.
    + intros [|[|k]] r Hk Hr; try discriminate. split; reflexivity.
    + discriminate.
    + intros [|k] r Hk; discriminate.
    + discriminate.
  - apply connection_inv_step; [apply timer_inv_reachable, Hs|exact IH].
Qed.

Lemma not_connected_not_open s :
  reachable s -> isConnected (hooks s) = false -> socket_open s = false.
Proof.
  intros Hr Hc. destruct (connection_inv_reachable s Hr) as [_ K2].
  destruct (socket_open s); [|reflexivity].
  rewrite K2 in Hc by reflexivity. discriminate.
Qed.


(** ** The send guard *)

(** C4. A send attempt made while the connection is not Connected -- the
    socket in [wsRef] is missing or its ready state is not OPEN, which is
    what the guard reads and which holds, in every reachable state, whenever
    the connected flag is false -- is a silent no-op: it returns normally
    even if the host's [send] would have thrown, and it leaves the whole
    state as it was, so nothing is queued and nothing is left to retry.  The
    same holds for any sequence of attempts. *)
Theorem send_dropped_when_not_connected s attempts :
  socket_open s = false \/ (reachable s /\ isConnected (hooks s) = false) ->
  send_all attempts s = (Ok tt, s) /\
  forall imageData throws, send_frame imageData throws s = (Ok tt, s).
Proof.
  intros Hnot.
  assert (socket_open s = false) as Hclosed.
  { destruct Hnot as [H|[Hr Hc]]; [exact H|].
    apply not_connected_not_open; assumption. }
  assert (forall imageData throws, send_frame imageData throws s = (Ok tt, s))
    as Hone.
  { intros imageData throws. unfold socket_open in Hclosed.
    js_unfold. js_simpl.
    destruct (wsRef (refs s)) as [k|]; js_simpl; [|reflexivity].
    rewrite Hclosed. reflexivity. }
  split; [|exact Hone].
  induction attempts as [|[imageData throws] rest IH]; [reflexivity|].
  cbn [send_all]. unfold mbind, Js_bind. rewrite Hone. exact IH.
Qed.

Lemma send_dropped_when_not_connected_witness :
  (socket_open disconnected_page = false \/
   (reachable disconnected_page /\
    isConnected (hooks disconnected_page) = false)) /\
  send_all [("data:image/jpeg;base64,AAAA", false);
            ("data:image/jpeg;base64,BBBB", true)] disconnected_page
    = (Ok tt, disconnected_page).
Proof.
  assert (reachable disconnected_page) as Hr
    by (apply reachable_run, reachable_page).
  assert (isConnected (hooks disconnected_page) = false) as Hc
    by (vm_compute; reflexivity).
  split; [right; split; [exact Hr|exact Hc]|].
  apply send_dropped_when_not_connected.
  right; split; [exact Hr|exact Hc].
Defined.

(** ** Teardown *)

(** What the cleanup gets right: it cancels the pending timer, closes an open
    socket once, and running it again changes nothing. *)
Lemma cleanup_cancels_timer s :
  timer_inv s -> timers (browser (exec cleanup s)) = ∅.
Proof.
  intros Hinv. pose proof (timer_inv_cleared s Hinv) as Hc.
  js_run; exact Hc.
Qed.

Lemma cleanup_closes_open_socket s k :
  wsRef (refs s) = Some k ->
  sockets (browser s) !! k = Some OPEN ->
  let s' := exec cleanup s in
  sockets (browser s') !! k = Some CLOSING /\
  effects (browser s') = WsClose k :: effects (browser s).
Proof.
  intros Hw Hk. js_unfold. js_simpl.
  destruct (reconnectTimeout (closure s)); js_simpl; rewrite Hw; js_simpl;
    rewrite Hk; js_simpl.
  all: split; [|reflexivity].
  all: apply list_lookup_insert_eq, lookup_lt_is_Some; eauto.
Qed.

Lemma cleanup_idempotent s :
  exec cleanup (exec cleanup s) = exec cleanup s.
Proof.
  js_unfold. js_simpl.
  repeat (js_branch; js_simpl;
          repeat match goal with
            | H : ?x = _ |- context [?x] => rewrite H; js_simpl
            end).
  all: try match goal with
         | H1 : is_OPEN (?l !! ?k) = true,
           H2 : is_OPEN (<[?k:=CLOSING]> ?l !! ?k) = true |- _ =>
             exfalso; destruct (l !! k) eqn:E; [|discriminate];
             rewrite list_lookup_insert_eq in H2
               by (eapply lookup_lt_Some; eauto);
             discriminate
         end.
  all: unfold upd_browser, browser_sockets, browser_timers, browser_effects;
    cbn -[insert delete lookup]; rewrite ?delete_delete_eq; reflexivity.
Qed.

(** C6 at its failing input.  The component is mounted, its socket opens, the
    component is unmounted: the cleanup leaves no timer pending and calls
    [close()] on the socket.  When the browser then reports that socket
    closed, [onclose] -- still attached -- schedules a reconnect: a timer is
    pending after teardown, and when it fires a new socket is opened. *)
Lemma reconnect_pending_after_teardown :
  timers (browser torn_down_page) = ∅ /\
  sockets (browser torn_down_page) = [CLOSING] /\
  timers (browser after_teardown_close) = {[ 1%nat := 3000 ]} /\
  effects (browser (step after_teardown_close (TimerFires 1 true)))
  = NewWebSocket "wss://localhost:8000/ws/enhance"
      :: effects (browser after_teardown_close) /\
  sockets (browser (step after_teardown_close (TimerFires 1 true)))
  = [CLOSED; CONNECTING].
Proof.
  by_evaluation.
Qed.

(** ** What goes over the wire *)

Lemma wire_ok_step url s e :
  url = wsUrl (protocol (browser s)) (hostname (browser s)) ->
  wire_ok url (effects (browser s)) ->
  wire_ok url (effects (browser (step s e))).
Proof.
  intros -> H.
  step_cases e;
    repeat first
      [ assumption
      | apply wire_frame
      | apply wire_connect
      | apply wire_quiet; [|reflexivity] ].
Qed.

Lemma location_step s e :
  protocol (browser (step s e)) = protocol (browser s) /\
  hostname (browser (step s e)) = hostname (browser s).
Proof. step_cases e; split; reflexivity. Qed.

Lemma wire_ok_reachable s :
  reachable s ->
  wire_ok (wsUrl (protocol (browser s)) (hostname (browser s)))
    (effects (browser s)).
Proof.
  induction 1 as [protocol hostname text v h d now ok|s e _ IH].
  - destruct ok; unfold mounted, rendered; js_run.
    + apply wire_connect, wire_nil.
    + apply wire_quiet; [|reflexivity]. apply wire_connect, wire_nil.
  - destruct (location_step s e) as [-> ->].
    apply wire_ok_step; [reflexivity|exact IH].
Qed.

Lemma wire_ok_elements url l :
  wire_ok url l ->
  (forall u, NewWebSocket u ∈ l -> u = url) /\
  (forall k payload,
      WsSend k payload ∈ l ->
      exists q imageData,
        payload = JSON_stringify_frame "frame" imageData /\
        ToDataURL "image/jpeg" q (Some imageData) ∈ l).
Proof.
  induction 1 as [|l _ [IHu IHs]|l q d k _ [IHu IHs]|l e _ [IHu IHs] Hq].
  - split; intros; exfalso; eapply not_elem_of_nil; eauto.
  - split.
    + intros u Hu. apply elem_of_cons in Hu as [Hu|Hu]; [congruence|auto].
    + intros k p Hp. apply elem_of_cons in Hp as [Hp|Hp]; [discriminate|].
      destruct (IHs k p Hp) as (q & d & -> & Hin).
      exists q, d. split; [reflexivity|]. apply elem_of_cons. auto.
  - split.
    + intros u Hu. apply elem_of_cons in Hu as [Hu|Hu]; [discriminate|auto].
    + intros k' p Hp. apply elem_of_cons in Hp as [Hp|Hp].
      * inversion Hp; subst. exists q, d. split; [reflexivity|].
        apply elem_of_cons. right. apply elem_of_cons. auto.
      * destruct (IHs k' p Hp) as (q' & d' & -> & Hin).
        exists q', d'. split; [reflexivity|]. apply elem_of_cons. auto.
  - split.
    + intros u Hu. apply elem_of_cons in Hu as [Hu|Hu]; [|auto].
      subst e. discriminate.
    + intros k p Hp. apply elem_of_cons in Hp as [Hp|Hp].
      * subst e. discriminate.
      * destruct (IHs k p Hp) as (q & d & -> & Hin).
        exists q, d. split; [reflexivity|]. apply elem_of_cons. auto.
Qed.

Lemma wsUrl_shape protocol hostname :
  wsUrl protocol hostname
  = String.append (if String.eqb protocol "https:" then "wss://" else "ws://")
      (String.append hostname ":8000/ws/enhance").
Proof. unfold wsUrl. destruct (String.eqb protocol "https:"); reflexivity. Qed.

Lemma escape_string_plain s :
  all_plain s = true -> escape_string s = s.
Proof.
  induction s as [|c s IH]; [reflexivity|].
  simpl. intros H. apply andb_true_iff in H as [Hc Hs].
  rewrite (IH Hs). unfold plain in Hc.
  apply andb_true_iff in Hc as [Hc H92]. apply andb_true_iff in Hc as [H32 H34].
  unfold escape_char.
  apply negb_true_iff in H34, H92. rewrite H34, H92.
  apply Nat.leb_le in H32.
  repeat match goal with
    | |- context [Nat.eqb ?a ?b] =>
        destruct (Nat.eqb_spec a b); [lia|]
    end.
  destruct (Nat.ltb_spec (Ascii.nat_of_ascii c) 32); [lia|]. reflexivity.
Qed.

(** An attempt once logged stays in the log. *)
Lemma attempt_logged_step url s e :
  NewWebSocket url ∈ effects (browser s) ->
  NewWebSocket url ∈ effects (browser (step s e)).
Proof.
  intros H.
  step_cases e; repeat first [exact H | apply elem_of_cons; right].
Qed.

Lemma attempt_logged s :
  reachable s ->
  NewWebSocket (wsUrl (protocol (browser s)) (hostname (browser s)))
    ∈ effects (browser s).
Proof.
  induction 1 as [protocol hostname text v h d now ok|s e _ IH].
  - destruct ok; unfold mounted, rendered; js_run;
      repeat first [apply elem_of_cons; left; reflexivity
                   | apply elem_of_cons; right].
  - destruct (location_step s e) as [-> ->].
    apply attempt_logged_step, IH.
Qed.

(** A reconnect timer that fires makes one attempt. *)
Lemma reconnect_attempt s id delay ok :
  timers (browser s) !! id = Some delay ->
  effects (browser (step s (TimerFires id ok)))
  = (if ok then [] else [ConsoleError "Failed to create WebSocket:"])
    ++ NewWebSocket (wsUrl (protocol (browser s)) (hostname (browser s)))
    :: effects (browser s).
Proof.
  intros Hid. unfold step. rewrite Hid. destruct ok; js_run; reflexivity.
Qed.

(** A capture step that reaches the send with the socket open sends the
    frame just encoded. *)
Lemma frame_serialised s env k imageData :
  reachable s ->
  wsRef (refs s) = Some k ->
  sockets (browser s) !! k = Some OPEN ->
  video_active s = true ->
  contexts_available s = true ->
  capture_throws s env = false ->
  toDataURL_result env = Some imageData ->
  exists drawn,
    effects (browser (exec (captureFrame env) s))
    = WsSend k (JSON_stringify_frame "frame" imageData)
        :: ToDataURL "image/jpeg" JPEG_QUALITY (Some imageData)
        :: drawn ++ effects (browser s) /\
    Forall (fun e => quiet e = true) drawn.
Proof.
  intros Hr Hw Hk Hv Hc Ht Hurl. apply frameSkip_reachable in Hr.
  unfold video_active, contexts_available, capture_throws, socket_open in *.
  destruct env as [dh dd result st]. simpl in Ht, Hurl. subst result.
  rewrite Hw, Hk in Ht. simpl in Ht.
  js_unfold. js_simpl.
  destruct (videoRef (refs s)), (paused (video (browser s))),
    (ended (video (browser s))); try discriminate.
  js_simpl.
  destruct (context2d (hiddenCanvas (browser s))),
    (context2d (displayCanvas (browser s))); try discriminate.
  js_simpl. rewrite Hr. change (0 <? FRAME_SKIP_RATE)%Z with false.
  js_simpl.
  destruct dh; [discriminate|]. js_simpl.
  destruct (isComparingRef (refs s)); js_simpl.
  - destruct dd; [discriminate|]. js_simpl. rewrite Hw. js_simpl.
    rewrite Hk. js_simpl. destruct st; [discriminate|]. js_simpl.
    exists [FillText DisplaySurface "ORIGINAL" 10 25;
            DrawVideo DisplaySurface CAPTURE_WIDTH CAPTURE_HEIGHT;
            DrawVideo HiddenSurface CAPTURE_WIDTH CAPTURE_HEIGHT].
    split; [reflexivity|]. repeat constructor.
  - rewrite Hw. js_simpl. rewrite Hk. js_simpl.
    destruct st; [destruct dd; discriminate|]. js_simpl.
    exists [DrawVideo HiddenSurface CAPTURE_WIDTH CAPTURE_HEIGHT].
    split; [reflexivity|]. repeat constructor.
Qed.

(** C8. The component connects to [ws://<hostname>:8000/ws/enhance], with
    [wss] instead of [ws] exactly when the page's protocol is [https:]: an
    attempt on that URL is made at mount and one each time a reconnect timer
    fires, and no attempt is ever made on another URL.  A capture step that
    reaches the send with the socket open sends, on that socket, the JSON
    text of the object with the two keys [type], holding the string
    [frame], and [image], holding the string that
    [toDataURL('image/jpeg', 0.6)] has just returned, and nothing else is
    ever sent. *)
Theorem wire_protocol s :
  reachable s ->
  let url :=
    String.append
      (if String.eqb (protocol (browser s)) "https:"
       then "wss://" else "ws://")
      (String.append (hostname (browser s)) ":8000/ws/enhance") in
  let frame imageData :=
    String.concat ""
      ["{"; quote_string "type"; ":"; quote_string "frame"; ",";
       quote_string "image"; ":"; quote_string imageData; "}"] in
  NewWebSocket url ∈ effects (browser s) /\
  (forall id delay ok,
      timers (browser s) !! id = Some delay ->
      effects (browser (step s (TimerFires id ok)))
      = (if ok then [] else [ConsoleError "Failed to create WebSocket:"])
        ++ NewWebSocket url :: effects (browser s)) /\
  (forall u, NewWebSocket u ∈ effects (browser s) -> u = url) /\
  (forall env k imageData,
      wsRef (refs s) = Some k ->
      sockets (browser s) !! k = Some OPEN ->
      video_active s = true ->
      contexts_available s = true ->
      capture_throws s env = false ->
      toDataURL_result env = Some imageData ->
      exists drawn,
        effects (browser (exec (captureFrame env) s))
        = WsSend k (frame imageData)
            :: ToDataURL "image/jpeg" JPEG_QUALITY (Some imageData)
            :: drawn ++ effects (browser s) /\
        Forall (fun e => quiet e = true) drawn) /\
  (forall k payload,
      WsSend k payload ∈ effects (browser s) ->
      exists q imageData,
        ToDataURL "image/jpeg" q (Some imageData) ∈ effects (browser s) /\
        payload = frame imageData).
Proof.
  intros Hr url frame.
  pose proof (wire_ok_elements _ _ (wire_ok_reachable s Hr)) as [Hu Hs].
  assert (url = wsUrl (protocol (browser s)) (hostname (browser s))) as ->
    by (symmetry; apply wsUrl_shape).
  split; [apply attempt_logged, Hr|].
  split; [intros id delay ok Hid; apply (reconnect_attempt s id delay ok Hid)|].
  split; [exact Hu|].
  split.
  - intros env k imageData Hw Hk Hv Hc Ht Hd.
    apply (frame_serialised s env k imageData Hr Hw Hk Hv Hc Ht Hd).
  - intros k payload Hin. destruct (Hs k payload Hin) as (q & d & -> & Hd).
    exists q, d. split; [exact Hd|]. reflexivity.
Qed.

Lemma wire_protocol_witness :
  reachable connected_page /\
  NewWebSocket
    (String.append
       (if String.eqb (protocol (browser connected_page)) "https:"
        then "wss://" else "ws://")
       (String.append (hostname (browser connected_page)) ":8000/ws/enhance"))
    ∈ effects (browser connected_page) /\
  exists drawn,
    effects (browser (exec (captureFrame calm) connected_page))
    = WsSend 0
        (String.concat ""
           ["{"; quote_string "type"; ":"; quote_string "frame"; ",";
            quote_string "image"; ":";
            quote_string "data:image/jpeg;base64,BBBB"; "}"])
        :: ToDataURL "image/jpeg" JPEG_QUALITY
             (Some "data:image/jpeg;base64,BBBB")
        :: drawn ++ effects (browser connected_page) /\
    Forall (fun e => quiet e = true) drawn.
Proof.
  assert (reachable connected_page) as Hr
    by (apply reachable_run, reachable_page).
  assert (wsRef (refs connected_page) = Some 0%nat) as Hw
    by (vm_compute; reflexivity).
  assert (sockets (browser connected_page) !! 0%nat = Some OPEN) as Hk
    by (vm_compute; reflexivity).
  assert (video_active connected_page = true) as Hv
    by (vm_compute; reflexivity).
  assert (contexts_available connected_page = true) as Hc
    by (vm_compute; reflexivity).
  assert (capture_throws connected_page calm = false) as Ht
    by (vm_compute; reflexivity).
  destruct (wire_protocol connected_page Hr) as (Hmount & _ & _ & Hsend & _).
  split; [exact Hr|]. split; [exact Hmount|].
  exact (Hsend calm 0%nat "data:image/jpeg;base64,BBBB" Hw Hk Hv Hc Ht eq_refl).
Defined.

(** ** End-to-end scenarios *)

(** Ten 'enhanced' messages across 1200 ms, each with a processing time of
    50 ms: one report, made by the tenth message, of 8.3 frames per second. *)
Example scenario_ten_frames :
  let s := run connected_page ten_messages in
  stats (hooks (run connected_page (take 9 ten_messages)))
  = stats (hooks connected_page) /\
  fps (stats (hooks s)) = double (83 # 10) /\
  processingTime (stats (hooks s)) = JNum 50 /\
  frameCount (stats (hooks s)) = JNum 10 /\
  frameCountRef (refs s) = 0 /\
  lastStatsTimeRef (refs s) = 1200.
Proof.
  by_evaluation.
Qed.

(** The connection closes while streaming is active: the connected and the
    streaming flags are cleared and exactly one timer, of 3000 ms, is
    pending. *)
Example scenario_connection_closed :
  isStreaming (hooks (run page [SocketOpen 0; LoadedMetadata calm])) = true /\
  isConnected (hooks disconnected_page) = false /\
  isStreaming (hooks disconnected_page) = false /\
  timers (browser disconnected_page) = {[ 1%nat := 3000 ]}.
Proof.
  by_evaluation.
Qed.

(** * Further properties of the component *)

(** ** The message handler *)

(** X1. A message that cannot be parsed, or that parses to [null], is logged
    as a parse error and changes nothing else: the exception is caught inside
    the handler. *)
Theorem malformed_message_only_logged s data now :
  (forall response, data = Some response ->
                    exists e, get_prop response "type" = inl e) ->
  onmessage data now s
  = (Ok tt,
     upd_browser
       (fun b => browser_effects
                   (ConsoleError "Error parsing response:" :: effects b) b)
       s).
Proof.
  intros Hbad. js_unfold. js_simpl.
  destruct data as [response|]; js_simpl; [|reflexivity].
  destruct (Hbad response eq_refl) as [e He]. rewrite He. reflexivity.
Qed.

Lemma malformed_message_only_logged_witness :
  (forall response, Some JNull = Some response ->
                    exists e, get_prop response "type" = inl e) /\
  effects (browser (exec (onmessage (Some JNull) 5000) connected_page))
  = ConsoleError "Error parsing response:" :: effects (browser connected_page).
Proof.
  assert (forall response, Some JNull = Some response ->
                           exists e, get_prop response "type" = inl e) as H.
  { intros response [= <-]. exists TypeError. reflexivity. }
  split; [exact H|].
  unfold exec.
  rewrite (malformed_message_only_logged connected_page (Some JNull) 5000 H).
  reflexivity.
Defined.

(** X2. A message whose [type] is neither 'enhanced' nor 'error' (or is
    missing) is ignored without a trace: the state is left as it was and
    nothing is logged. *)
Theorem unknown_message_ignored s response type now :
  get_prop response "type" = inr type ->
  strict_eq_str type "enhanced" = false ->
  strict_eq_str type "error" = false ->
  onmessage (Some response) now s = (Ok tt, s).
Proof.
  intros Hty He Hr. js_unfold. js_simpl. rewrite Hty. js_simpl.
  rewrite He, Hr. reflexivity.
Qed.

Lemma unknown_message_ignored_witness :
  onmessage (Some (JObj [("type", JStr "pong")])) 5000 connected_page
  = (Ok tt, connected_page).
Proof.
  apply (unknown_message_ignored connected_page _ (JStr "pong"));
    reflexivity.
Defined.

(** X3. Whatever the server sends, the message handler only logs to the
    console: it leaves the connection (sockets, timers, flags, [wsRef]), the
    compare flag, the video and the capture loop alone; only an 'error'
    message can change the error state, and only an 'enhanced' message can
    change the stats, the stats window or start an image decode. *)
Theorem onmessage_confined s data now :
  let s' := exec (onmessage data now) s in
  closure s' = closure s /\
  isConnected (hooks s') = isConnected (hooks s) /\
  isStreaming (hooks s') = isStreaming (hooks s) /\
  isComparing (hooks s') = isComparing (hooks s) /\
  wsRef (refs s') = wsRef (refs s) /\
  isComparingRef (refs s') = isComparingRef (refs s) /\
  sockets (browser s') = sockets (browser s) /\
  timers (browser s') = timers (browser s) /\
  video (browser s') = video (browser s) /\
  animationFrames (browser s') = animationFrames (browser s) /\
  (exists logged,
      effects (browser s') = logged ++ effects (browser s) /\
      Forall (fun e => exists msg, e = ConsoleError msg) logged) /\
  (message_kind data "error" = false -> error (hooks s') = error (hooks s)) /\
  (message_kind data "enhanced" = false ->
   stats (hooks s') = stats (hooks s) /\
   frameCountRef (refs s') = frameCountRef (refs s) /\
   lastStatsTimeRef (refs s') = lastStatsTimeRef (refs s) /\
   images (browser s') = images (browser s)).
Proof.
  unfold message_kind.
  js_run.
  all: repeat match goal with
         | H : _ && _ = true |- _ => apply andb_true_iff in H as [? ?]
         end.
  all: repeat match goal with
         | H : ?x = _ |- context [?x] => rewrite H
         end.
  all: repeat match goal with |- _ /\ _ => split end.
  all: try reflexivity.
  all: try (intros; discriminate).
  all: try match goal with
         | |- exists logged, ?l = logged ++ ?base /\ _ =>
             let p := prefix_of l base in
             exists p; split; [reflexivity|repeat constructor; eauto]
         end.
  all: intros _; repeat split; reflexivity.
Qed.

(** ** The connection life cycle *)

(** X4. One connection at a time: in every reachable state at most one
    socket is not CLOSED, it is the one [wsRef] holds, and no reconnect timer
    is pending while it lives. *)
Theorem one_live_socket s k1 r1 k2 r2 :
  reachable s ->
  sockets (browser s) !! k1 = Some r1 -> r1 <> CLOSED ->
  sockets (browser s) !! k2 = Some r2 -> r2 <> CLOSED ->
  k1 = k2 /\ wsRef (refs s) = Some k1 /\ timers (browser s) = ∅.
Proof.
  intros Hr H1 Hl1 H2 Hl2.
  destruct (connection_inv_reachable s Hr) as [K _].
  destruct (K k1 r1 H1 Hl1) as [Hw1 Ht], (K k2 r2 H2 Hl2) as [Hw2 _].
  split; [congruence|]. split; assumption.
Qed.

Lemma one_live_socket_witness :
  reachable connected_page /\
  wsRef (refs connected_page) = Some 0%nat /\
  timers (browser connected_page) = ∅.
Proof.
  assert (reachable connected_page) as Hr
    by (apply reachable_run, reachable_page).
  assert (sockets (browser connected_page) !! 0%nat = Some OPEN) as Hk
    by (vm_compute; reflexivity).
  assert (OPEN <> CLOSED) as Hne by discriminate.
  split; [exact Hr|].
  exact (proj2 (one_live_socket connected_page 0 OPEN 0 OPEN Hr Hk Hne Hk Hne)).
Defined.

Lemma disconnected_for_good_step s e :
  disconnected_for_good s ->
  disconnected_for_good (step s e) /\
  sockets (browser (step s e)) = sockets (browser s).
Proof.
  intros [Ht Hs]. unfold disconnected_for_good.
  step_cases e.
  all: try (split; [split|]; [assumption|assumption|reflexivity]).
  all: try match goal with
         | H : sockets _ !! _ = Some ?r |- _ =>
             apply Hs in H; discriminate
         end.
  all: try match goal with
         | H : timers _ !! _ = Some _ |- _ =>
             rewrite Ht, lookup_empty in H; discriminate
         end.
  all: try match goal with
         | H : is_OPEN _ = true |- _ =>
             apply is_OPEN_true in H; apply Hs in H; discriminate
         end.
  all: rewrite Ht, delete_empty; split; [split|]; auto.
Qed.

Lemma disconnected_for_good_run s events :
  disconnected_for_good s ->
  disconnected_for_good (run s events) /\
  sockets (browser (run s events)) = sockets (browser s).
Proof.
  revert s. induction events as [|e events IH]; intros s Hs; [auto|].
  destruct (disconnected_for_good_step s e Hs) as [Hd Heq].
  destruct (IH _ Hd) as [Hd' Heq']. simpl. split; [exact Hd'|congruence].
Qed.

(** X5. If [new WebSocket] throws when the reconnect timer fires, the error
    text is put in the error state and that is the end of reconnection: no
    timer is set, so whatever events follow, no socket is ever created or
    open again. *)
Theorem constructor_failure_ends_reconnection s id delay events :
  reachable s ->
  timers (browser s) !! id = Some delay ->
  let s' := step s (TimerFires id false) in
  is_string (error (hooks s')) = true /\
  sockets (browser s') = sockets (browser s) /\
  sockets (browser (run s' events)) = sockets (browser s) /\
  timers (browser (run s' events)) = ∅ /\
  socket_open (run s' events) = false.
Proof.
  intros Hr Hid s'.
  pose proof (timer_inv_reachable s Hr) as Hinv.
  pose proof (timer_inv_cleared s Hinv) as Hc.
  destruct (connection_inv_reachable s Hr) as [K _].
  assert (error (hooks s') = JStr (exnText (browser s) SyntaxError) /\
          sockets (browser s') = sockets (browser s) /\
          timers (browser s') = delete id (timers (browser s))) as (He & Hs & Ht).
  { unfold s', step. rewrite Hid. js_run. repeat split; reflexivity. }
  assert (disconnected_for_good s') as Hdead.
  { split.
    - rewrite Ht. destruct Hinv as [H1 _]. rewrite (H1 _ _ Hid) in Hc.
      exact Hc.
    - intros k r Hk. rewrite Hs in Hk.
      assert (r = CLOSED \/ r <> CLOSED) as [|Hne]
        by (destruct r; auto; right; discriminate); [assumption|].
      destruct (K k r Hk Hne) as [_ Hempty].
      rewrite Hempty, lookup_empty in Hid. discriminate. }
  destruct (disconnected_for_good_run s' events Hdead) as [[Ht' Hs'] Heq].
  split; [rewrite He; reflexivity|]. split; [exact Hs|].
  split; [congruence|]. split; [exact Ht'|].
  unfold socket_open. destruct (wsRef (refs (run s' events))) as [k|];
    [|reflexivity].
  destruct (sockets (browser (run s' events)) !! k) as [r|] eqn:Hk;
    [|reflexivity].
  apply Hs' in Hk. subst r. reflexivity.
Qed.

Lemma constructor_failure_ends_reconnection_witness :
  reachable disconnected_page /\
  timers (browser disconnected_page) !! 1%nat = Some 3000 /\
  socket_open
    (run (step disconnected_page (TimerFires 1 false))
       [AnimationFrame calm; SocketOpen 0; TimerFires 1 true])
  = false.
Proof.
  assert (reachable disconnected_page) as Hr
    by (apply reachable_run, reachable_page).
  assert (timers (browser disconnected_page) !! 1%nat = Some 3000) as Ht
    by (vm_compute; reflexivity).
  split; [exact Hr|]. split; [exact Ht|].
  exact (proj2 (proj2 (proj2 (proj2
           (constructor_failure_ends_reconnection disconnected_page 1 3000
              [AnimationFrame calm; SocketOpen 0; TimerFires 1 true]
              Hr Ht))))).
Defined.


(** X6. A reconnect that succeeds restores the connection without touching
    the rest: once the timer has fired and the new socket has opened, [wsRef]
    holds the new socket, the send guard passes, the connected flag is set
    and the error is cleared, while the streaming flag, the stats, the stats
    window and the pending capture callbacks are as before the reconnect. *)
Theorem reconnect_restores_connection s id delay :
  reachable s ->
  timers (browser s) !! id = Some delay ->
  let k := length (sockets (browser s)) in
  let s1 := step s (TimerFires id true) in
  let s2 := step s1 (SocketOpen k) in
  sockets (browser s1) = sockets (browser s) ++ [CONNECTING] /\
  wsRef (refs s2) = Some k /\
  socket_open s2 = true /\
  isConnected (hooks s2) = true /\
  error (hooks s2) = JNull /\
  timers (browser s2) = ∅ /\
  isStreaming (hooks s2) = isStreaming (hooks s) /\
  stats (hooks s2) = stats (hooks s) /\
  frameCountRef (refs s2) = frameCountRef (refs s) /\
  lastStatsTimeRef (refs s2) = lastStatsTimeRef (refs s) /\
  animationFrames (browser s2) = animationFrames (browser s).
Proof.
  intros Hr Hid k s1 s2.
  pose proof (timer_inv_reachable s Hr) as Hinv.
  pose proof (timer_inv_cleared s Hinv) as Hc.
  destruct Hinv as [H1 _]. rewrite (H1 _ _ Hid) in Hc.
  assert (sockets (browser s1) !! k = Some CONNECTING) as Hk.
  { unfold s1, step. rewrite Hid. js_run.
    rewrite lookup_app_r, Nat.sub_diag by lia. reflexivity. }
  unfold s2, step. rewrite Hk.
  unfold s1, step. rewrite Hid. unfold set_readyState. js_run.
  fold k.
  assert (<[k:=OPEN]> (sockets (browser s) ++ [CONNECTING]) !! k = Some OPEN)
    as Ho.
  { apply list_lookup_insert_eq. rewrite length_app. simpl. unfold k. lia. }
  unfold socket_open. js_simpl. fold k. rewrite Ho.
  repeat split; try reflexivity. exact Hc.
Qed.

Lemma reconnect_restores_connection_witness :
  reachable disconnected_page /\
  timers (browser disconnected_page) !! 1%nat = Some 3000 /\
  socket_open
    (step (step disconnected_page (TimerFires 1 true))
       (SocketOpen (length (sockets (browser disconnected_page)))))
  = true.
Proof.
  assert (reachable disconnected_page) as Hr
    by (apply reachable_run, reachable_page).
  assert (timers (browser disconnected_page) !! 1%nat = Some 3000) as Ht
    by (vm_compute; reflexivity).
  split; [exact Hr|]. split; [exact Ht|].
  exact (proj1 (proj2 (proj2
           (reconnect_restores_connection disconnected_page 1 3000 Hr Ht)))).
Defined.

(** X7. Unmounting while the socket is still CONNECTING does not close it:
    the cleanup only cancels the timer, sends and logs nothing, and leaves
    the handlers attached, so when the socket opens afterwards the open
    handler still runs and the component holds an open connection. *)
Theorem teardown_leaves_connecting_socket s k :
  reachable s ->
  wsRef (refs s) = Some k ->
  sockets (browser s) !! k = Some CONNECTING ->
  let s1 := step s Unmount in
  let s2 := step s1 (SocketOpen k) in
  sockets (browser s1) = sockets (browser s) /\
  effects (browser s1) = effects (browser s) /\
  timers (browser s1) = ∅ /\
  sockets (browser s2) !! k = Some OPEN /\
  (exists msg, effects (browser s2) = ConsoleLog msg :: effects (browser s)) /\
  socket_open s2 = true.
Proof.
  intros Hr Hw Hk s1 s2.
  pose proof (timer_inv_cleared s (timer_inv_reachable s Hr)) as Hc.
  assert (sockets (browser s1) = sockets (browser s) /\
          effects (browser s1) = effects (browser s) /\
          timers (browser s1) = ∅ /\ wsRef (refs s1) = Some k)
    as (Hs1 & He1 & Ht1 & Hw1).
  { unfold s1, step. js_unfold. js_simpl.
    destruct (reconnectTimeout (closure s)); js_simpl; rewrite Hw; js_simpl;
      rewrite Hk; js_simpl; auto. }
  split; [exact Hs1|]. split; [exact He1|]. split; [exact Ht1|].
  assert (<[k:=OPEN]> (sockets (browser s1)) !! k = Some OPEN) as Ho.
  { apply list_lookup_insert_eq. rewrite Hs1. eapply lookup_lt_Some, Hk. }
  assert (sockets (browser s1) !! k = Some CONNECTING) as Hk1
    by (rewrite Hs1; exact Hk).
  unfold s2, step. rewrite Hk1. clearbody s1.
  unfold set_readyState, socket_open. js_unfold. js_simpl.
  rewrite Hw1, Ho, He1. eauto.
Qed.

Lemma teardown_leaves_connecting_socket_witness :
  reachable page /\
  wsRef (refs page) = Some 0%nat /\
  sockets (browser page) !! 0%nat = Some CONNECTING /\
  sockets (browser (step page Unmount)) = sockets (browser page).
Proof.
  assert (wsRef (refs page) = Some 0%nat) as Hw by (vm_compute; reflexivity).
  assert (sockets (browser page) !! 0%nat = Some CONNECTING) as Hk
    by (vm_compute; reflexivity).
  split; [exact reachable_page|]. split; [exact Hw|]. split; [exact Hk|].
  exact (proj1 (teardown_leaves_connecting_socket page 0 reachable_page Hw Hk)).
Defined.

(** ** More on the capture loop *)

(** X8. Outside compare mode a capture step never draws on the display
    canvas, whatever else happens in the step. *)
Theorem display_untouched_unless_comparing s env :
  isComparingRef (refs s) = false ->
  exists done,
    effects (browser (exec (captureFrame env) s))
    = done ++ effects (browser s) /\
    Forall (fun e => touches_display e = false) done.
Proof.
  intros Hc. destruct env as [dh dd result st].
  js_unfold. js_simpl.
  repeat (js_branch; js_simpl;
          try (rewrite Hc in *; js_simpl); try discriminate).
  all: match goal with
       | |- exists done, ?l = done ++ ?base /\ _ =>
           let p := prefix_of l base in
           exists p; split; [reflexivity|repeat constructor]
       end.
Qed.

Lemma display_untouched_unless_comparing_witness :
  isComparingRef (refs connected_page) = false /\
  exists done,
    effects (browser (exec (captureFrame calm) connected_page))
    = done ++ effects (browser connected_page) /\
    Forall (fun e => touches_display e = false) done.
Proof.
  assert (isComparingRef (refs connected_page) = false) as Hc
    by (vm_compute; reflexivity).
  split; [exact Hc|].
  exact (display_untouched_unless_comparing connected_page calm Hc).
Defined.

(** X9. With the socket of [wsRef] open, the video active, both contexts
    available and no host call throwing, a capture step draws the frame on
    the hidden canvas (and, in compare mode, the original and its label on
    the display canvas), encodes it as JPEG, sends exactly one frame message
    on that socket and reschedules itself: compare mode does not pause the
    upload. *)
Theorem frame_sent_when_open s env k imageData :
  reachable s ->
  wsRef (refs s) = Some k ->
  sockets (browser s) !! k = Some OPEN ->
  video_active s = true ->
  contexts_available s = true ->
  capture_throws s env = false ->
  toDataURL_result env = Some imageData ->
  let s' := exec (captureFrame env) s in
  effects (browser s')
  = WsSend k (JSON_stringify_frame "frame" imageData)
      :: ToDataURL "image/jpeg" JPEG_QUALITY (Some imageData)
      :: (if isComparingRef (refs s)
          then [FillText DisplaySurface "ORIGINAL" 10 25;
                DrawVideo DisplaySurface CAPTURE_WIDTH CAPTURE_HEIGHT]
          else [])
      ++ DrawVideo HiddenSurface CAPTURE_WIDTH CAPTURE_HEIGHT
      :: effects (browser s) /\
  animationFrames (browser s') = S (animationFrames (browser s)) /\
  sockets (browser s') = sockets (browser s).
Proof.
  intros Hr Hw Hk Hv Hc Ht Hurl. apply frameSkip_reachable in Hr.
  unfold video_active, contexts_available, capture_throws, socket_open in *.
  destruct env as [dh dd result st]. simpl in Ht, Hurl. subst result.
  rewrite Hw, Hk in Ht. simpl in Ht.
  js_unfold. js_simpl.
  destruct (videoRef (refs s)), (paused (video (browser s))),
    (ended (video (browser s))); try discriminate.
  js_simpl.
  destruct (context2d (hiddenCanvas (browser s))),
    (context2d (displayCanvas (browser s))); try discriminate.
  js_simpl. rewrite Hr. change (0 <? FRAME_SKIP_RATE)%Z with false.
  js_simpl.
  destruct dh; [discriminate|]. js_simpl.
  destruct (isComparingRef (refs s)); js_simpl.
  - destruct dd; [discriminate|]. js_simpl. rewrite Hw. js_simpl.
    rewrite Hk. js_simpl. destruct st; [discriminate|]. js_simpl. auto.
  - rewrite Hw. js_simpl. rewrite Hk. js_simpl.
    destruct st; [destruct dd; discriminate|]. js_simpl. auto.
Qed.

Lemma frame_sent_when_open_witness :
  reachable connected_page /\
  wsRef (refs connected_page) = Some 0%nat /\
  sockets (browser connected_page) !! 0%nat = Some OPEN /\
  video_active connected_page = true /\
  contexts_available connected_page = true /\
  capture_throws connected_page calm = false /\
  animationFrames (browser (exec (captureFrame calm) connected_page))
  = S (animationFrames (browser connected_page)).
Proof.
  assert (reachable connected_page) as Hr
    by (apply reachable_run, reachable_page).
  assert (wsRef (refs connected_page) = Some 0%nat) as Hw
    by (vm_compute; reflexivity).
  assert (sockets (browser connected_page) !! 0%nat = Some OPEN) as Hk
    by (vm_compute; reflexivity).
  assert (video_active connected_page = true) as Hv
    by (vm_compute; reflexivity).
  assert (contexts_available connected_page = true) as Hc
    by (vm_compute; reflexivity).
  assert (capture_throws connected_page calm = false) as Ht
    by (vm_compute; reflexivity).
  split; [exact Hr|]. split; [exact Hw|]. split; [exact Hk|].
  split; [exact Hv|]. split; [exact Hc|]. split; [exact Ht|].
  exact (proj1 (proj2 (frame_sent_when_open connected_page calm 0 _
                         Hr Hw Hk Hv Hc Ht eq_refl))).
Defined.

Lemma capture_sized_step s e : capture_sized s -> capture_sized (step s e).
Proof.
  intros H. unfold capture_sized in *.
  step_cases e; try assumption; repeat split; try reflexivity; apply H.
Qed.

Lemma capture_sized_run s events :
  capture_sized s -> capture_sized (run s events).
Proof.
  revert s. induction events as [|e events IH]; intros s H; [exact H|].
  simpl. apply IH, capture_sized_step, H.
Qed.

(** X10. Once the metadata handler has run with the three elements present,
    both canvases have the capture size 640x360 and keep it whatever happens
    next, so every enhanced image decoded from then on is drawn at 640x360. *)
Theorem capture_size_kept s env events i src :
  videoRef (refs s) = true ->
  hiddenCanvasRef (refs s) = true ->
  displayCanvasRef (refs s) = true ->
  let s' := run (step s (LoadedMetadata env)) events in
  capture_sized s' /\
  (images (browser s') !! i = Some (Some src) ->
   displayCanvasRef (refs s') = true ->
   context2d (displayCanvas (browser s')) = true ->
   effects (browser (step s' (ImageLoaded i)))
   = DrawImage i 640 360 :: effects (browser s')).
Proof.
  intros Hv Hh Hd s'.
  assert (capture_sized s') as Hsized.
  { apply capture_sized_run.
    unfold capture_sized, step. destruct env as [dh dd result st].
    js_unfold. js_simpl. rewrite Hv. js_simpl. rewrite Hv, Hh, Hd.
    js_simpl.
    repeat (js_branch; js_simpl); repeat split; reflexivity. }
  split; [exact Hsized|].
  intros Hi Hd' Hc'. rewrite (decoded_image_is_drawn s' i src Hi Hd' Hc').
  destruct Hsized as (_ & _ & -> & ->). reflexivity.
Qed.

Lemma capture_size_kept_witness :
  videoRef (refs connected_page) = true /\
  hiddenCanvasRef (refs connected_page) = true /\
  displayCanvasRef (refs connected_page) = true /\
  capture_sized
    (run (step connected_page (LoadedMetadata calm))
       [SocketMessage 0 enhanced_message 1200]).
Proof.
  assert (videoRef (refs connected_page) = true) as Hv
    by (vm_compute; reflexivity).
  assert (hiddenCanvasRef (refs connected_page) = true) as Hh
    by (vm_compute; reflexivity).
  assert (displayCanvasRef (refs connected_page) = true) as Hd
    by (vm_compute; reflexivity).
  split; [exact Hv|]. split; [exact Hh|]. split; [exact Hd|].
  exact (proj1 (capture_size_kept connected_page calm
                  [SocketMessage 0 enhanced_message 1200] 0 JNull Hv Hh Hd)).
Defined.



(** ** Exceptions *)

(** X12. No exception escapes the callbacks that guard themselves with
    [try]/[catch] or with tests: the message handler, [connectWebSocket], the
    capture step, [startFrameCapture], the metadata handler and [startCamera]
    return normally for every input, every state and every host failure. *)
Theorem callbacks_never_throw s :
  (forall data now, fst (onmessage data now s) = Ok tt) /\
  (forall ok, fst (connectWebSocket ok s) = Ok tt) /\
  (forall env, fst (captureFrame env s) = Ok tt) /\
  (forall env, fst (startFrameCapture env s) = Ok tt) /\
  (forall env, fst (onloadedmetadata env s) = Ok tt) /\
  (forall outcome c, exists c', fst (startCamera outcome c s) = Ok c').
Proof.
  repeat match goal with |- _ /\ _ => split end.
  - intros data now. js_run; reflexivity.
  - intros ok. js_run; reflexivity.
  - intros [dh dd result st]. js_run; reflexivity.
  - intros [dh dd result st]. js_run; reflexivity.
  - intros [dh dd result st]. js_run; reflexivity.
  - intros outcome c. unfold startCamera. js_run; eauto.
Qed.

(** ** The camera controls *)

(** X13. [stopCamera] clears the streaming flag and nothing else of the
    component (the socket, the video element and the pending capture
    callbacks are untouched); with the video element present every track of
    its stream ends up stopped, without it the stream is left running; and
    calling it again changes nothing. *)
Theorem stopCamera_effect s c :
  let r := stopCamera c s in
  snd r = upd_hooks (hooks_isStreaming false) s /\
  (exists c',
      fst r = Ok c' /\
      metadataHandler c' = metadataHandler c /\
      (videoRef (refs s) = true ->
       forall tracks, srcObject c = Some tracks ->
                      srcObject c' = Some (replicate (length tracks) Stopped)) /\
      (videoRef (refs s) = false -> c' = c) /\
      stopCamera c' (snd r) = (Ok c', snd r)).
Proof.
  unfold stopCamera. js_unfold. js_simpl.
  split; [reflexivity|].
  destruct (videoRef (refs s)) eqn:Hv; js_simpl.
  - destruct (srcObject c) as [tracks|] eqn:Hs.
    + eexists. split; [reflexivity|]. simpl. split; [reflexivity|].
      split; [|split; [discriminate|]].
      * intros _ tracks' [= <-]. f_equal.
        clear. induction tracks as [|t tracks IH]; simpl; congruence.
      * f_equal. f_equal. f_equal.
        clear. induction tracks as [|t tracks IH]; simpl; congruence.
    + exists c. split; [reflexivity|]. split; [reflexivity|].
      split; [intros _ tracks; congruence|]. split; [reflexivity|].
      rewrite Hs. reflexivity.
  - exists c. repeat split; try reflexivity. discriminate.
Qed.

(** ** More on the statistics *)

(** X14. Only an inbound message can change the exposed stats and the
    stats window: no other event, a connection loss, a reconnect or an
    unmount included, resets the count, the last-report time or the stats. *)
Theorem stats_change_only_on_messages s e :
  match e with
  | SocketMessage _ _ _ => True
  | _ =>
      stats (hooks (step s e)) = stats (hooks s) /\
      frameCountRef (refs (step s e)) = frameCountRef (refs s) /\
      lastStatsTimeRef (refs (step s e)) = lastStatsTimeRef (refs s)
  end.
Proof.
  step_cases e; try exact I; repeat split; reflexivity.
Qed.



(** ** The compare flag *)

(** X16. The compare flag read by the callbacks follows the state with one
    step of delay: only the effect on [isComparing] writes the ref, with the
    current state value; only the COMPARE button's handlers write the state;
    no connection or capture event touches either. *)
Theorem compare_flag_sync s e :
  isComparingRef (refs (step s e))
  = match e with
    | ComparingEffect => isComparing (hooks s)
    | _ => isComparingRef (refs s)
    end /\
  isComparing (hooks (step s e))
  = match e with
    | MouseCompare down => down
    | _ => isComparing (hooks s)
    end.
Proof.
  step_cases e; split; congruence.
Qed.

(** ** The frame payload *)

Lemma append_assoc (a b c : string) :
  String.append (String.append a b) c = String.append a (String.append b c).
Proof.
  induction a as [|x a IH]; [reflexivity|].
  change (String x (String.append (String.append a b) c)
          = String x (String.append a (String.append b c))).
  rewrite IH. reflexivity.
Qed.

(** X17. For a data URI made of plain characters (no quote, backslash or
    control character) the frame message is exactly the text
    [{"type":"frame","image":"<data URI>"}], the URI copied unchanged. *)
Theorem frame_payload_plain imageData :
  all_plain imageData = true ->
  let q := String dquote EmptyString in
  JSON_stringify_frame "frame" imageData
  = String.concat ""
      ["{"; q; "type"; q; ":"; q; "frame"; q; ","; q; "image"; q; ":";
       q; imageData; q; "}"].
Proof.
  intros Hp q. unfold JSON_stringify_frame, quote_string.
  rewrite (escape_string_plain imageData Hp).
  rewrite (escape_string_plain "type"), (escape_string_plain "frame"),
    (escape_string_plain "image") by reflexivity.
  transitivity
    (String.append
       (String.concat ""
          ["{"; q; "type"; q; ":"; q; "frame"; q; ","; q; "image"; q; ":"; q])
       (String.append (String.append imageData q) "}")).
  - reflexivity.
  - rewrite append_assoc. reflexivity.
Qed.

Lemma frame_payload_plain_witness :
  all_plain "data:image/jpeg;base64,/9j/4AAQ" = true /\
  JSON_stringify_frame "frame" "data:image/jpeg;base64,/9j/4AAQ"
  = String.concat ""
      ["{"; String dquote ""; "type"; String dquote ""; ":";
       String dquote ""; "frame"; String dquote ""; ",";
       String dquote ""; "image"; String dquote ""; ":";
       String dquote ""; "data:image/jpeg;base64,/9j/4AAQ";
       String dquote ""; "}"].
Proof.
  split; [reflexivity|].
  apply (frame_payload_plain "data:image/jpeg;base64,/9j/4AAQ"). reflexivity.
Defined.

(** ** Rendering *)

Lemma render_view_iff toString h :
  (exists view, render toString h = inr view) <-> renderable h = true.
Proof.
  unfold render, renderable, toFixed.
  destruct (processingTime (stats h)); simpl;
    try (split; [intros [view Hv]; discriminate|discriminate]).
  destruct (negb (truthy (error h)) || valid_child (error h)),
    (valid_child (frameCount (stats h))); simpl;
    split; try discriminate; try (intros [view Hv]; discriminate); eauto.
Qed.

(** X18. What a render does is decided by three values of the state: it
    throws on [toFixed] exactly when the exposed processing time is not a
    number; otherwise React rejects it exactly when the frame count, or an
    error that is truthy, holds a plain object; otherwise it returns the
    view, whose buttons are disabled as the flags say (START while
    streaming or not connected, STOP and COMPARE while not streaming). *)
Theorem render_outcome toString h :
  match render toString h with
  | inl ToFixedTypeError => is_number (processingTime (stats h)) = false
  | inl InvalidChild =>
      is_number (processingTime (stats h)) = true /\
      (valid_child (frameCount (stats h)) = false \/
       truthy (error h) = true /\ valid_child (error h) = false)
  | inr view =>
      is_number (processingTime (stats h)) = true /\
      valid_child (frameCount (stats h)) = true /\
      (truthy (error h) = true -> valid_child (error h) = true) /\
      startDisabled view = isStreaming h || negb (isConnected h) /\
      stopDisabled view = negb (isStreaming h) /\
      compareDisabled view = negb (isStreaming h)
  end.
Proof.
  unfold render, toFixed.
  destruct (processingTime (stats h)); simpl; try reflexivity.
  destruct (truthy (error h)), (valid_child (error h)),
    (valid_child (frameCount (stats h))); simpl;
    repeat split; auto; try discriminate.
Qed.

(** X19. A report made from an 'enhanced' message whose
    [processing_time_ms] is missing or not a number is not checked: the value
    goes into the stats as it is, and the next render throws on [toFixed]. *)
Theorem report_without_processing_time_breaks_render toString s data now :
  message_kind data "enhanced" = true ->
  displayCanvasRef (refs s) = true ->
  isComparingRef (refs s) = false ->
  1000 <= now - lastStatsTimeRef (refs s) ->
  is_number (field data "processing_time_ms") = false ->
  render toString (hooks (exec (onmessage data now) s)) = inl ToFixedTypeError.
Proof.
  intros Hk Hd Hc He Hn. apply message_kind_inv in Hk as (r & -> & Hty).
  pose proof (get_prop_total _ _ _ Hty) as Hfield.
  apply Z.leb_le in He.
  js_unfold. js_simpl. rewrite Hty. js_simpl. rewrite Hd. js_simpl.
  rewrite Hc. js_simpl. rewrite (Hfield "image"). js_simpl.
  rewrite He. js_simpl.
  rewrite (Hfield "processing_time_ms"). js_simpl.
  rewrite (Hfield "frame_count"). js_simpl.
  unfold render, toFixed. simpl.
  destruct (field (Some r) "processing_time_ms"); try reflexivity.
  discriminate.
Qed.

Lemma report_without_processing_time_breaks_render_witness :
  message_kind enhanced_message_without_time "enhanced" = true /\
  displayCanvasRef (refs connected_page) = true /\
  isComparingRef (refs connected_page) = false /\
  1000 <= 1200 - lastStatsTimeRef (refs connected_page) /\
  is_number (field enhanced_message_without_time "processing_time_ms") = false /\
  render (fun _ => EmptyString)
    (hooks (exec (onmessage enhanced_message_without_time 1200)
              connected_page))
  = inl ToFixedTypeError.
Proof.
  assert (displayCanvasRef (refs connected_page) = true) as Hd
    by (vm_compute; reflexivity).
  assert (isComparingRef (refs connected_page) = false) as Hc
    by (vm_compute; reflexivity).
  assert (1000 <= 1200 - lastStatsTimeRef (refs connected_page)) as He
    by (vm_compute; discriminate).
  split; [reflexivity|]. split; [exact Hd|]. split; [exact Hc|].
  split; [exact He|]. split; [reflexivity|].
  exact (report_without_processing_time_breaks_render (fun _ => EmptyString)
           connected_page enhanced_message_without_time 1200
           eq_refl Hd Hc He eq_refl).
Defined.

(** X20. An 'error' message whose [message] is an object (or an array
    holding one) is put in the error state as it is, and the next render of
    a page that rendered before fails on it. *)
Theorem error_object_breaks_render toString s data now :
  message_kind data "error" = true ->
  valid_child (field data "message") = false ->
  renderable (hooks s) = true ->
  render toString (hooks (exec (onmessage data now) s)) = inl InvalidChild.
Proof.
  intros Hk Hv Hr. apply message_kind_inv in Hk as (r & -> & Hty).
  pose proof (get_prop_total _ _ _ Hty "message") as Hm.
  unfold renderable in Hr.
  apply andb_true_iff in Hr as [Hr _]. apply andb_true_iff in Hr as [Hn Hf].
  assert (truthy (field (Some r) "message") = true) as Htruthy.
  { destruct (field (Some r) "message"); try discriminate; reflexivity. }
  js_unfold. js_simpl. rewrite Hty. js_simpl.
  destruct (displayCanvasRef (refs s)); js_simpl; rewrite Hm; js_simpl.
  all: unfold render, toFixed; simpl.
  all: destruct (processingTime (stats (hooks s))); try discriminate.
  all: rewrite Htruthy, Hv; reflexivity.
Qed.

Lemma error_object_breaks_render_witness :
  message_kind error_message_with_object "error" = true /\
  valid_child (field error_message_with_object "message") = false /\
  renderable (hooks connected_page) = true /\
  render (fun _ => EmptyString)
    (hooks (exec (onmessage error_message_with_object 1200) connected_page))
  = inl InvalidChild.
Proof.
  assert (renderable (hooks connected_page) = true) as Hr
    by (vm_compute; reflexivity).
  split; [reflexivity|]. split; [reflexivity|]. split; [exact Hr|].
  exact (error_object_breaks_render (fun _ => EmptyString) connected_page
           error_message_with_object 1200 eq_refl eq_refl Hr).
Defined.

Lemma renderable_step s e :
  well_formed_event e = true ->
  renderable (hooks s) = true -> renderable (hooks (step s e)) = true.
Proof.
  unfold renderable, well_formed_event, well_formed_message, message_kind,
    field.
  intros Hw Hr.
  step_cases e; try assumption.
  all: repeat match goal with
         | H : _ && _ = true |- _ => apply andb_true_iff in H as [? ?]
         end.
  all: repeat match goal with
         | H : ?x = _ |- _ =>
             tryif constr_eq H Hw then fail
             else lazymatch type of Hw with
                  | context [x] => rewrite H in Hw
                  end
         end.
  all: simpl in Hw.
  all: repeat match goal with
         | H : _ && _ = true |- _ => apply andb_true_iff in H as [? ?]
         end.
  all: repeat (apply andb_true_iff; split); try assumption;
    try reflexivity.
  all: try (apply orb_true_r).
  all: try match goal with
         | H : is_number ?v = true |- valid_child ?v = true =>
             destruct v; try discriminate; reflexivity
         | H : is_string ?v = true |- _ || valid_child ?v = true =>
             destruct v; try discriminate; apply orb_true_r
         end.
  match goal with
  | H : strict_eq_str ?v "error" = true |- _ =>
      apply strict_eq_str_true in H; subst v; simpl in Hw
  end.
  match goal with
  | |- _ || valid_child ?v = true =>
      destruct v; try discriminate; apply orb_true_r
  end.
Qed.

(** X21. Against a server that keeps to the wire protocol the page always
    renders: after any sequence of socket, timer, image, capture and compare
    events in which every 'enhanced' message carries numbers as
    [processing_time_ms] and [frame_count] and every 'error' message a
    string as [message], render returns a view. *)
Theorem render_safe_under_protocol toString protocol hostname text v h d now
    ok events :
  forallb well_formed_event events = true ->
  exists view,
    render toString
      (hooks (run (mounted protocol hostname text v h d now ok) events))
    = inr view.
Proof.
  intros Hw. apply render_view_iff.
  assert (renderable (hooks (mounted protocol hostname text v h d now ok))
          = true)
    as H0 by (destruct ok; [reflexivity|cbn; apply orb_true_r]).
  revert H0. generalize (mounted protocol hostname text v h d now ok).
  induction events as [|e events IH]; intros s Hs; [exact Hs|].
  simpl in Hw. apply andb_true_iff in Hw as [He Hw].
  simpl. apply IH; [exact Hw|]. apply renderable_step; assumption.
Qed.

Lemma render_safe_under_protocol_witness :
  forallb well_formed_event (SocketOpen 0 :: ten_messages) = true /\
  exists view,
    render (fun _ => EmptyString)
      (hooks (run (mounted "https:" "localhost" host_text playing canvas_2d
                     canvas_2d 0 true)
                (SocketOpen 0 :: ten_messages)))
    = inr view.
Proof.
  assert (forallb well_formed_event (SocketOpen 0 :: ten_messages) = true)
    as Hw by (vm_compute; reflexivity).
  split; [exact Hw|].
  exact (render_safe_under_protocol (fun _ => EmptyString) "https:"
           "localhost" host_text playing canvas_2d canvas_2d 0 true
           (SocketOpen 0 :: ten_messages) Hw).
Defined.

(** X22. After a connection loss the page shows CONNECTING... with the
    START, STOP and COMPARE buttons all disabled, while the video, the
    pending capture callbacks and the compare flag are as they were. *)
Theorem controls_after_connection_loss toString s k failed r :
  sockets (browser s) !! k = Some r ->
  r <> CLOSED ->
  renderable (hooks s) = true ->
  let s' := step s (SocketLost k failed) in
  exists view,
    render toString (hooks s') = inr view /\
    statusText view = "CONNECTING..." /\
    startDisabled view = true /\
    stopDisabled view = true /\
    compareDisabled view = true /\
    video (browser s') = video (browser s) /\
    animationFrames (browser s') = animationFrames (browser s) /\
    isComparingRef (refs s') = isComparingRef (refs s).
Proof.
  intros Hk Hr Hok s'.
  assert (isConnected (hooks s') = false /\ isStreaming (hooks s') = false /\
          video (browser s') = video (browser s) /\
          animationFrames (browser s') = animationFrames (browser s) /\
          isComparingRef (refs s') = isComparingRef (refs s))
    as (Hc & Hs & Hv & Ha & Hcmp).
  { unfold s', step. rewrite Hk. unfold set_readyState.
    destruct r; try congruence; destruct failed; js_run; auto. }
  assert (renderable (hooks s') = true) as Hok'
    by (apply renderable_step; [reflexivity|exact Hok]).
  apply (render_view_iff toString) in Hok' as [view Hview].
  exists view. split; [exact Hview|].
  unfold render in Hview.
  destruct (toFixed toString (processingTime (stats (hooks s'))));
    [discriminate|].
  destruct (negb (truthy (error (hooks s'))) || valid_child (error (hooks s')));
    [|discriminate].
  destruct (valid_child (frameCount (stats (hooks s')))); [|discriminate].
  injection Hview as <-. simpl. rewrite Hc, Hs.
  repeat split; assumption || reflexivity.
Qed.

Lemma controls_after_connection_loss_witness :
  sockets (browser connected_page) !! 0%nat = Some OPEN /\
  OPEN <> CLOSED /\
  renderable (hooks connected_page) = true /\
  exists view,
    render (fun _ => EmptyString)
      (hooks (step connected_page (SocketLost 0 true)))
    = inr view /\
    startDisabled view = true /\ stopDisabled view = true.
Proof.
  assert (sockets (browser connected_page) !! 0%nat = Some OPEN) as Hk
    by (vm_compute; reflexivity).
  assert (OPEN <> CLOSED) as Hne by discriminate.
  assert (renderable (hooks connected_page) = true) as Hr
    by (vm_compute; reflexivity).
  split; [exact Hk|]. split; [exact Hne|]. split; [exact Hr|].
  destruct (controls_after_connection_loss (fun _ => EmptyString)
              connected_page 0 true OPEN Hk Hne Hr)
    as (view & Hv & _ & Hs & Ht & _).
  exists view. split; [exact Hv|]. split; [exact Hs|exact Ht].
Defined.
